(** * FastCollections: query assembly and tile cache

    A shallow embedding of the parts of [api/utilities.py] and
    [api/routers/collections/router.py] that assemble SQL text, serve and
    cache vector tiles, invalidate the tile cache and compute bins and
    breaks, followed by the properties of that code.

    Conventions of the embedding.
    - Python [str] is [string]; an f-string is a chain of [+:+]; the double
      quote character is [dq], the newline [nl].
    - [None] is [None]; an optional argument is an [option].
    - A call that may raise returns an [outcome]; code that also touches the
      file system runs in the state monad [M] over a [World].
    - The database connection, the CQL parser and evaluator, the working
      directory and the configuration are the fields of [Environment]: the
      code consumes them, it does not define them.
    - A call made with keyword arguments first binds its keywords to the
      parameters of the function called ([bind_keywords]). *)

From Stdlib Require Import String Ascii ZArith List Lia.
From Stdlib Require Import Init.Byte.
From stdpp Require Import base option gmap strings list pretty numbers.

#[local] Open Scope string_scope.
#[local] Open Scope Z_scope.

(** ** Python values, exceptions and string operations *)

Module Py.

(** The exceptions the embedded code raises or lets pass. *)
Inductive exn : Type :=
| HTTPException (status_code : Z) (detail : string)
| OSError
| KeyError (key : string)
| IndexError
| TypeError
| ValueError
| ZeroDivisionError
| ParseError
| PostgresError (message : string)
| AttributeError
| UndefinedColumnError
| InvalidTextRepresentationError (message : string)
| UndefinedFunctionError (message : string).

Inductive outcome (A : Type) : Type :=
| Return (a : A)
| Raise (e : exn).
Arguments Return {A} a.
Arguments Raise {A} e.

#[global] Instance outcome_ret : MRet outcome := fun A a => Return a.
#[global] Instance outcome_bind : MBind outcome := fun A B f m =>
  match m with
  | Return a => f a
  | Raise e => Raise e
  end.

Definition bytes : Type := list byte.

(** The characters an f-string cannot spell inside a Rocq string. *)
Definition dq : string := String "034"%char EmptyString.
Definition nl : string := String "010"%char EmptyString.

(** [str.split(sep)] for a one-character separator: never returns an empty
    list, and keeps empty fields. *)
Fixpoint split (sep : ascii) (s : string) : list string :=
  match s with
  | EmptyString => [EmptyString]
  | String c rest =>
      if Ascii.eqb c sep then EmptyString :: split sep rest
      else match split sep rest with
           | [] => [String c EmptyString]
           | field :: fields => String c field :: fields
           end
  end.

(** [sep.join(parts)]. *)
Definition join (sep : string) (parts : list string) : string :=
  String.concat sep parts.

(** [s[:-1]]: everything but the last character; the empty string stays. *)
Fixpoint drop_last (s : string) : string :=
  match s with
  | EmptyString => EmptyString
  | String c EmptyString => EmptyString
  | String c rest => String c (drop_last rest)
  end.

(** [x in xs] for a list of strings. *)
Definition str_in (x : string) (xs : list string) : bool :=
  bool_decide (x ∈ xs).

(** [xs[i]] on a list: [IndexError] out of range. *)
Definition index {A : Type} (xs : list A) (i : nat) : outcome A :=
  match xs !! i with
  | Some x => Return x
  | None => Raise IndexError
  end.

(** [f"{n}"] for an [int]. *)
Definition str_int (n : Z) : string := pretty n.

(** [p] is a prefix of [s]. *)
Fixpoint is_prefix (p s : string) : bool :=
  match p, s with
  | EmptyString, _ => true
  | String a p', String b s' => Ascii.eqb a b && is_prefix p' s'
  | String _ _, EmptyString => false
  end.

(** [t in s] for strings, as a test and as a proposition. *)
Fixpoint contains (t s : string) : bool :=
  is_prefix t s ||
  match s with
  | EmptyString => false
  | String _ s' => contains t s'
  end.

Definition is_substring (t s : string) : Prop :=
  ∃ pre post : string, s = pre +:+ t +:+ post.

(** Truthiness of an optional string: [None] and [""] are falsy. *)
Definition truthy (s : option string) : bool :=
  match s with
  | None => false
  | Some EmptyString => false
  | Some _ => true
  end.

(** The parameters a [def] declares: those without a default and those
    with one. *)
Record signature : Type := mkSignature {
  required : list string;
  optional : list string
}.

(** A call whose arguments are all given by keyword. Python binds them
    before the body runs: a keyword that is no parameter of the function,
    and a parameter without default that no keyword gives, raise
    [TypeError]. *)
Definition bind_keywords (sig : signature) (keywords : list string) : outcome unit :=
  if forallb (λ keyword, str_in keyword (required sig ++ optional sig)%list) keywords &&
     forallb (λ parameter, str_in parameter keywords) (required sig)
  then Return tt else Raise TypeError.

(** [obj.name] on an object whose attributes are [attributes], [v] being
    the value it holds there: [AttributeError] when it has no such
    attribute. *)
Definition getattr {A : Type} (attributes : list string) (name : string) (v : A) : outcome A :=
  if str_in name attributes then Return v else Raise AttributeError.

End Py.
Export Py.

(** ** The file system under the working directory *)

Module Os.

(** What a path holds. A directory exists when it was created or when
    something lies beneath it. *)
Inductive node : Type :=
| File (content : bytes)
| Dir.

(** The operations that change the file system, in the order they happened. *)
Inductive fs_op : Type :=
| MakeDirs (path : string)
| WriteFile (path : string) (content : bytes)
| RmTree (path : string).

(** [full]: the volume has no space left; creating a directory or a file
    fails with [OSError], removing still works. *)
Record World : Type := mkWorld {
  fs : gmap string node;
  full : bool;
  oplog : list fs_op
}.

(** [p] is [d] itself or lies beneath it. *)
Definition under (d p : string) : Prop :=
  p = d ∨ is_prefix (d +:+ "/") p = true.

#[global] Instance under_dec (d p : string) : Decision (under d p).
Proof. unfold under. apply _. Defined.

(** [os.path.exists(p)]. *)
Definition path_exists (w : World) (p : string) : bool :=
  bool_decide (map_Exists (λ k _, under p k) (fs w)).

(** [os.path.dirname(p)]. *)
Fixpoint dirname (p : string) : string :=
  match p with
  | EmptyString => EmptyString
  | String c rest =>
      if contains "/" rest then String c (dirname rest) else EmptyString
  end.

(** State and exceptions: a computation maps a world to an outcome and the
    world it leaves behind, also when it raises. *)
Definition M (A : Type) : Type := World → outcome A * World.

#[global] Instance M_ret : MRet M := fun A a w => (Return a, w).
#[global] Instance M_bind : MBind M := fun A B f m w =>
  match m w with
  | (Return a, w') => f a w'
  | (Raise e, w') => (Raise e, w')
  end.

(** A call that raises or returns without touching the file system. *)
Definition lift {A : Type} (o : outcome A) : M A := fun w => (o, w).

Definition raise {A : Type} (e : exn) : M A := lift (Raise e).

(** [try: body  except OSError: pass]. *)
Definition try_except_OSError (body : M unit) : M unit := fun w =>
  match body w with
  | (Raise OSError, w') => (Return tt, w')
  | r => r
  end.

Definition os_path_exists (p : string) : M bool := fun w =>
  (Return (path_exists w p), w).

(** [os.makedirs(d)]: refuses an existing path. *)
Definition os_makedirs (d : string) : M unit := fun w =>
  if full w then (Raise OSError, w)
  else if path_exists w d then (Raise OSError, w)
  else (Return tt, mkWorld (<[d := Dir]> (fs w)) (full w) (oplog w ++ [MakeDirs d])).

(** [with open(f, "wb") as file: file.write(data)]: needs the directory. *)
Definition open_wb_write (f : string) (data : bytes) : M unit := fun w =>
  if full w then (Raise OSError, w)
  else if negb (path_exists w (dirname f)) then (Raise OSError, w)
  else (Return tt, mkWorld (<[f := File data]> (fs w)) (full w) (oplog w ++ [WriteFile f data])).

(** [shutil.rmtree(d)]: [d] and everything beneath it goes. *)
Definition shutil_rmtree (d : string) : M unit := fun w =>
  (Return tt,
   mkWorld (filter (λ kv : string * node, ¬ under d kv.1) (fs w)) (full w)
           (oplog w ++ [RmTree d])).

(** What happened to the file system between two worlds of one run. *)
Definition ops_since (before after : World) : list fs_op :=
  drop (length (oplog before)) (oplog after).

End Os.
Export Os.

(** ** What the code consumes: configuration and collaborators *)

(** A statement as it reaches the connection: the SQL text and the values
    bound to its placeholders. *)
Record statement : Type := mkStatement {
  sql : string;
  bound : list string
}.

(** [config.NUMERIC_FIELDS]. *)
Definition NUMERIC_FIELDS : list string :=
  ["bigint"; "bigserial"; "double precision"; "integer"; "smallint"; "real";
   "smallserial"; "serial"; "numeric"; "money"].

(** The working directory, the two settings read from the process
    environment, the CQL parser and evaluators, and the answers of the
    database connection to the statements the code sends. The answer to a
    statement is read at the type its call site uses: the rows of a
    [column_name] query are the names, [RETURNING gid] yields the gids. *)
Class Environment : Type := {
  cwd : string;
  CACHE_AGE_IN_SECONDS : Z;
  MAX_FEATURES_PER_TILE : Z;
  (* pygeofilter.parsers.ecql.parse *)
  ast : Type;
  parse : string → outcome ast;
  (* pygeofilter.backends.sql.to_sql_where, used by api/utilities.py *)
  sql_to_sql_where : ast → gmap string string → outcome string;
  (* api.filter.evaluate.to_sql_where, used by the router *)
  to_sql_where : ast → gmap string string → outcome string;
  (* con.fetch of a [SELECT column_name ...] catalog query *)
  fetch_column_names : string → outcome (list string);
  (* con.fetch of a [SELECT column_name, data_type ...] catalog query *)
  fetch_columns : string → outcome (list (string * string));
  (* con.fetchval of the vector tile query *)
  fetchval_tile : string → outcome bytes;
  (* con.fetch of [INSERT ... RETURNING gid] *)
  fetch_returning_gid : string → outcome (list Z);
  (* con.fetchrow of [SELECT count( * ) ...], read at ["count"] *)
  fetchrow_count : string → outcome Z;
  (* con.fetch whose rows the code does not read *)
  execute : string → outcome unit;
  (* property values of a GeoJSON feature, their [str] and [float] forms *)
  value : Type;
  str_value : value → string;
  str_float : value → outcome string;
  (* a GeoJSON geometry and [json.dumps] of its type and coordinates *)
  geometry : Type;
  json_dumps_geojson : geometry → string
}.

(** The numbers of a column as the driver returns them and as Python
    computes with them ([int], [float] or [Decimal] by the type of the
    column): subtraction, division by an [int], the product with an [int]
    and the text of an f-string, and the answers of the connection to the
    statements that select such numbers. The arithmetic is the
    interpreter's; nothing is assumed of it. *)
Class Numbers : Type := {
  number : Type;
  number_sub : number → number → number;
  number_div : number → Z → outcome number;
  number_mul : Z → number → number;
  str_number : number → string;
  (* con.fetchrow of [SELECT MIN(..),MAX(..)], read at ["min"] and ["max"] *)
  fetchrow_min_max : string → outcome (option number * option number);
  (* con.fetchrow of [SELECT MIN(..)], read at ["min"] *)
  fetchrow_min : string → outcome (option number);
  (* con.fetchrow of [SELECT MAX(..)], read at ["max"] *)
  fetchrow_max : string → outcome (option number);
  (* con.fetchrow of [SELECT <type>_bins(..)], read at ["<type>_bins"] *)
  fetchrow_bins : string → outcome (list number)
}.

(** ** api/utilities.py *)

Module Utilities.
Section WithEnvironment.
Context `{Environment}.

(** The cache directory of a table, the directory of a tile row and the
    file of a tile, as [get_tile] and the invalidating handlers spell them. *)
Definition cache_dir (schema table : string) : string :=
  cwd +:+ "/cache/" +:+ schema +:+ "_" +:+ table.

Definition cache_file_dir (schema table tile_matrix_set_id : string) (z x : Z) : string :=
  cwd +:+ "/cache/" +:+ schema +:+ "_" +:+ table +:+ "/" +:+ tile_matrix_set_id +:+ "/" +:+
  str_int z +:+ "/" +:+ str_int x.

Definition cache_file (schema table tile_matrix_set_id : string) (z x y : Z) : string :=
  cwd +:+ "/cache/" +:+ schema +:+ "_" +:+ table +:+ "/" +:+ tile_matrix_set_id +:+ "/" +:+
  str_int z +:+ "/" +:+ str_int x +:+ "/" +:+ str_int y.

Definition tile_field_query (schema table : string) : string :=
  nl +:+
  "        SELECT column_name" +:+ nl +:+
  "        FROM information_schema.columns" +:+ nl +:+
  "        WHERE table_name = '" +:+ table +:+ "'" +:+ nl +:+
  "        AND table_schema = '" +:+ schema +:+ "'" +:+ nl +:+
  "        AND column_name != 'geom';" +:+ nl +:+
  "        ".

(** [field_mapping[name] = name] for every column. *)
Definition field_mapping_of (db_fields : list string) : gmap string string :=
  foldl (λ mapping column, <[column := column]> mapping) ∅ db_fields.

Definition tile_field_list (fields : option string) (db_fields : list string) : string :=
  match fields with
  | None => foldl (λ field_list column, field_list +:+ ", " +:+ dq +:+ column +:+ dq) "" db_fields
  | Some fields => "," +:+ dq +:+ fields +:+ dq
  end.

Definition sql_vector_query (schema table : string) (z x y : Z) (field_list : string) : string :=
  nl +:+
  "        SELECT ST_AsMVT(tile, '" +:+ schema +:+ "." +:+ table +:+ "', 4096)" +:+ nl +:+
  "        FROM (" +:+ nl +:+
  "            WITH" +:+ nl +:+
  "            bounds AS (" +:+ nl +:+
  "                SELECT ST_TileEnvelope(" +:+ str_int z +:+ ", " +:+ str_int x +:+ ", " +:+ str_int y +:+ ") as geom" +:+ nl +:+
  "            )" +:+ nl +:+
  "            SELECT" +:+ nl +:+
  "                ST_AsMVTGeom(" +:+ nl +:+
  "                    ST_Transform(" +:+ dq +:+ "table" +:+ dq +:+ ".geom, 3857)" +:+ nl +:+
  "                    ,bounds.geom" +:+ nl +:+
  "                ) AS mvtgeom " +:+ field_list +:+ nl +:+
  "            FROM " +:+ dq +:+ schema +:+ dq +:+ "." +:+ dq +:+ table +:+ dq +:+ " as " +:+ dq +:+ "table" +:+ dq +:+ ", bounds" +:+ nl +:+
  "            WHERE ST_Intersects(" +:+ nl +:+
  "                ST_Transform(" +:+ dq +:+ "table" +:+ dq +:+ ".geom, 4326)," +:+ nl +:+
  "                ST_Transform(bounds.geom, 4326)" +:+ nl +:+
  "            )" +:+ nl +:+
  nl +:+
  "        ".

(** The text [get_tile] sends for a cache miss. *)
Definition tile_query (schema table : string) (z x y : Z)
    (fields cql_filter : option string) (db_fields : list string) : outcome string :=
  let query := sql_vector_query schema table z x y (tile_field_list fields db_fields) in
  query ←
    (if truthy cql_filter then
       tree ← parse (default "" cql_filter);
       where_statement ← sql_to_sql_where tree (field_mapping_of db_fields);
       mret (query +:+ " AND " +:+ where_statement)
     else mret query);
  mret (query +:+ "LIMIT " +:+ str_int MAX_FEATURES_PER_TILE +:+ ") as tile").

(** The write gate of [get_tile]. *)
Definition cache_write_gate (fields cql_filter : option string) : bool :=
  bool_decide (fields = None) && bool_decide (cql_filter = None) &&
  bool_decide (0 < CACHE_AGE_IN_SECONDS).

(** [get_tile]: the pair [(tile, served_from_cache)]. On a cache hit the
    first component is the empty [str], here the empty byte string. *)
Definition get_tile (schema table tile_matrix_set_id : string) (z x y : Z)
    (fields cql_filter : option string) : M (bytes * bool) :=
  let cache_file := cache_file schema table tile_matrix_set_id z x y in
  hit ← os_path_exists cache_file;
  if hit : bool then mret ([], true)
  else
    db_fields ← lift (fetch_column_names (tile_field_query schema table));
    query ← lift (tile_query schema table z x y fields cql_filter db_fields);
    tile ← lift (fetchval_tile query);
    (if cache_write_gate fields cql_filter then
       let cache_file_dir := cache_file_dir schema table tile_matrix_set_id z x in
       present ← os_path_exists cache_file_dir;
       (if negb present then try_except_OSError (os_makedirs cache_file_dir) else mret tt);;
       open_wb_write cache_file tile
     else mret tt);;
    mret (tile, false).

(** The two statements [get_table_geojson] sends: the page query and the
    count query. Neither call to the connection passes arguments besides
    the text. *)
Definition get_table_geojson_query (schema table : string)
    (filter bbox : option string) (limit offset : Z) (properties sortby : string)
    (sortdesc srid : Z) (return_geometry : bool) : outcome (statement * statement) :=
  let explicit := negb (String.eqb properties "*") && negb (String.eqb properties "") in
  let query :=
    if return_geometry then
      (nl +:+
       "            SELECT" +:+ nl +:+
       "            json_build_object(" +:+ nl +:+
       "                'type', 'FeatureCollection'," +:+ nl +:+
       "                'features', json_agg(ST_AsGeoJSON(t.*)::json)" +:+ nl +:+
       "            )" +:+ nl +:+
       "            FROM (" +:+ nl +:+
       "            ") +:+
      (if explicit
       then "SELECT " +:+ properties +:+ ",ST_Transform(geom," +:+ str_int srid +:+ ")"
       else "SELECT ST_Transform(geom," +:+ str_int srid +:+ "), gid")
    else
      (if explicit then "SELECT " +:+ properties +:+ ", gid" else "SELECT gid") in
  let query := query +:+ " FROM " +:+ dq +:+ schema +:+ dq +:+ "." +:+ dq +:+ table +:+ dq +:+ " " in
  let count_query := "SELECT COUNT(*) FROM " +:+ dq +:+ schema +:+ dq +:+ "." +:+ dq +:+ table +:+ dq +:+ " " in
  let query := match filter with Some filter => query +:+ "WHERE " +:+ filter | None => query end in
  let count_query :=
    match filter with Some filter => count_query +:+ "WHERE " +:+ filter | None => count_query end in
  '(query, count_query) ←
    match bbox with
    | None => mret (query, count_query)
    | Some bbox =>
        let glue := if filter is Some _ then " AND " else " WHERE " in
        let coords := split "," bbox in
        c0 ← index coords 0; c1 ← index coords 1; c2 ← index coords 2; c3 ← index coords 3;
        let envelope :=
          " ST_INTERSECTS(geom,ST_MakeEnvelope(" +:+ c0 +:+ ", " +:+ c1 +:+ ", " +:+ c2 +:+ ", " +:+
          c3 +:+ ", 4326)) " in
        mret (query +:+ glue +:+ envelope, count_query +:+ glue +:+ envelope)
    end;
  let query :=
    if negb (String.eqb sortby "gid") then
      let sort := if negb (sortdesc =? 1) then "desc" else "asc" in
      query +:+ " ORDER BY " +:+ sortby +:+ " " +:+ sort
    else query in
  let query := query +:+ " OFFSET " +:+ str_int offset +:+ " LIMIT " +:+ str_int limit in
  let query := if return_geometry then query +:+ ") AS t;" else query in
  mret (mkStatement query [], mkStatement count_query []).

(** [delete_tile_cache]. *)
Definition delete_tile_cache (schema table : string) : M unit :=
  present ← os_path_exists (cache_dir schema table);
  if present : bool then shutil_rmtree (cache_dir schema table) else mret tt.

(** The attributes [generate_where_clause] reads from its [info]. *)
Record WhereInfo : Type := mkWhereInfo {
  info_filter : option string;
  info_table : string;
  info_schema : string;
  info_coordinates : option string;
  info_geometry_type : option string;
  info_spatial_relationship : option string
}.

Definition where_field_query (schema table : string) : string :=
  nl +:+
  "            SELECT column_name" +:+ nl +:+
  "            FROM information_schema.columns" +:+ nl +:+
  "            WHERE table_name = '" +:+ table +:+ "'" +:+ nl +:+
  "            AND table_schema = '" +:+ schema +:+ "'" +:+ nl +:+
  "            AND column_name != 'geom';" +:+ nl +:+
  "        ".

(** [generate_where_clause]. *)
Definition generate_where_clause (info : WhereInfo) (no_where : bool) : outcome string :=
  let query := "" in
  query ←
    (if truthy (info_filter info) then
       db_fields ← fetch_column_names (where_field_query (info_schema info) (info_table info));
       tree ← parse (default "" (info_filter info));
       filter ← sql_to_sql_where tree (field_mapping_of db_fields);
       let query := if negb no_where then query +:+ " WHERE " else query +:+ " AND " in
       Return (query +:+ " " +:+ filter)
     else Return query);
  if truthy (info_coordinates info) && truthy (info_geometry_type info) &&
     truthy (info_spatial_relationship info) then
    let coordinates := default "" (info_coordinates info) in
    let geometry_type := default "" (info_geometry_type info) in
    let spatial_relationship := default "" (info_spatial_relationship info) in
    let query :=
      if truthy (info_filter info) then query +:+ " AND "
      else if negb no_where then query +:+ " WHERE " else query in
    if String.eqb geometry_type "POLYGON" then
      Return (query +:+ spatial_relationship +:+ "(ST_GeomFromText('" +:+ geometry_type +:+ "((" +:+
              coordinates +:+ "))',4326) ," +:+ info_table info +:+ ".geom)")
    else
      Return (query +:+ spatial_relationship +:+ "(ST_GeomFromText('" +:+ geometry_type +:+ "(" +:+
              coordinates +:+ ")',4326) ," +:+ info_table info +:+ ".geom)")
  else Return query.

(** [async def generate_where_clause(info: object, con, no_where: bool=False)]. *)
Definition generate_where_clause_signature : signature :=
  mkSignature ["info"; "con"] ["no_where"].

(** The body of [generate_where_clause] on any object: [attributes] are
    the names of the attributes the object has, and [info] holds the
    values of those among the six the body reads. Each is read where the
    body first reads it ([and] does not read its right side after a falsy
    left side), and reading one the object lacks raises [AttributeError]. *)
Definition generate_where_clause_of (attributes : list string) (info : WhereInfo)
    (no_where : bool) : outcome string :=
  let query := "" in
  filter ← getattr attributes "filter" (info_filter info);
  query ←
    (if truthy filter then
       table ← getattr attributes "table" (info_table info);
       schema ← getattr attributes "schema" (info_schema info);
       db_fields ← fetch_column_names (where_field_query schema table);
       tree ← parse (default "" filter);
       compiled ← sql_to_sql_where tree (field_mapping_of db_fields);
       let query := if negb no_where then query +:+ " WHERE " else query +:+ " AND " in
       Return (query +:+ " " +:+ compiled)
     else Return query);
  coordinates ← getattr attributes "coordinates" (info_coordinates info);
  geometry_type ←
    (if truthy coordinates
     then getattr attributes "geometry_type" (info_geometry_type info) else Return None);
  spatial_relationship ←
    (if truthy coordinates && truthy geometry_type
     then getattr attributes "spatial_relationship" (info_spatial_relationship info)
     else Return None);
  if truthy coordinates && truthy geometry_type && truthy spatial_relationship then
    let query :=
      if truthy filter then query +:+ " AND "
      else if negb no_where then query +:+ " WHERE " else query in
    table ← getattr attributes "table" (info_table info);
    if String.eqb (default "" geometry_type) "POLYGON" then
      Return (query +:+ default "" spatial_relationship +:+ "(ST_GeomFromText('" +:+
              default "" geometry_type +:+ "((" +:+ default "" coordinates +:+
              "))',4326) ," +:+ table +:+ ".geom)")
    else
      Return (query +:+ default "" spatial_relationship +:+ "(ST_GeomFromText('" +:+
              default "" geometry_type +:+ "(" +:+ default "" coordinates +:+
              ")',4326) ," +:+ table +:+ ".geom)")
  else Return query.

(** A call [utilities.generate_where_clause(k1=.., k2=.., ...)] with the
    keywords [keywords], the object passed as [info] having the attributes
    [attributes]: the binding of the keywords, then the body. [no_where] is
    the value the call gives, or [false] when it gives none. *)
Definition generate_where_clause_call (keywords attributes : list string) (info : WhereInfo)
    (no_where : bool) : outcome string :=
  bind_keywords generate_where_clause_signature keywords;;
  generate_where_clause_of attributes info no_where.

(** The values of an object that has none of the attributes
    [generate_where_clause] reads: they are never read. *)
Definition no_where_attributes : WhereInfo := mkWhereInfo None "" "" None None None.

(** *** The answer of [get_table_geojson] *)

(** A GeoJSON feature of the answer: the key [id], the geometry, and the
    dictionary [properties]. *)
Record GeoFeature : Type := mkGeoFeature {
  geo_id : option value;
  geo_geometry : option geometry;
  geo_properties : gmap string value
}.

Record FeatureCollection : Type := mkFeatureCollection {
  features : list GeoFeature;
  numberMatched : Z;
  numberReturned : Z
}.

(** The body of the loop over the features that [json_build_object]
    returned. [feature['properties']['gid']] raises [KeyError] when the
    key is absent. *)
Definition format_feature (properties : string) (feature : GeoFeature) : outcome GeoFeature :=
  let props := geo_properties feature in
  let props :=
    if bool_decide (is_Some (props !! "st_transform")) then delete "st_transform" props else props in
  let props := if bool_decide (is_Some (props !! "geom")) then delete "geom" props else props in
  match props !! "gid" with
  | None => Raise (KeyError "gid")
  | Some gid =>
      let props := if String.eqb properties "" then delete "gid" props else props in
      Return (mkGeoFeature (Some gid) (geo_geometry feature) props)
  end.

(** The body of the loop over the rows of a query without geometry:
    [feature['gid']] first, then every key but [geom] and [st_transform]. *)
Definition record_feature (properties : string) (record : gmap string value) : outcome GeoFeature :=
  match record !! "gid" with
  | None => Raise (KeyError "gid")
  | Some gid =>
      let props :=
        filter (λ kv : string * value, negb (str_in kv.1 ["geom"; "st_transform"]) = true) record in
      if String.eqb properties "" then
        match props !! "gid" with
        | None => Raise (KeyError "gid")
        | Some _ => Return (mkGeoFeature (Some gid) None (delete "gid" props))
        end
      else Return (mkGeoFeature (Some gid) None props)
  end.

(** [get_table_geojson] after its queries: [json_features] is the
    [features] array of the row of the page query ([None] for JSON null),
    [records] the rows of the page query without geometry, and [count] the
    answer of the count query. *)
Definition get_table_geojson_result (properties : string) (return_geometry : bool)
    (json_features : option (list GeoFeature)) (records : list (gmap string value)) (count : Z)
    : outcome FeatureCollection :=
  formatted ←
    (if return_geometry then
       match json_features with
       | Some found => mapM (format_feature properties) found
       | None => Return []
       end
     else mapM (record_feature properties) records);
  Return (mkFeatureCollection formatted count (Z.of_nat (length formatted))).

(** [async def get_table_geojson(schema, table, app, filter=None,
    bbox=None, limit=200000, offset=0, properties="*", sortby="gid",
    sortdesc=1, srid=4326, return_geometry=True)]. *)
Definition get_table_geojson_signature : signature :=
  mkSignature ["schema"; "table"; "app"]
    ["filter"; "bbox"; "limit"; "offset"; "properties"; "sortby"; "sortdesc"; "srid";
     "return_geometry"].

Section Answer.

(** The answers of the connection to the page query: with geometry, the
    [features] array of the one row; without, the rows. *)
Variable fetchrow_features : string → outcome (option (list GeoFeature)).
Variable fetch_records : string → outcome (list (gmap string value)).

(** The body of [get_table_geojson] on its own parameters: the two
    queries are assembled, the page query is sent, then the count query,
    and the answer is formatted. Of the errors of the page query the two
    caught are turned into status 400 with their text. *)
Definition get_table_geojson (schema table : string) (filter bbox : option string)
    (limit offset : Z) (properties sortby : string) (sortdesc srid : Z)
    (return_geometry : bool) : outcome FeatureCollection :=
  '(page, count_query) ←
    get_table_geojson_query schema table filter bbox limit offset properties sortby sortdesc
      srid return_geometry;
  rows ←
    match
      (if return_geometry
       then found ← fetchrow_features (sql page); Return (found, [])
       else records ← fetch_records (sql page); Return (None, records))
    with
    | Raise (InvalidTextRepresentationError message) => Raise (HTTPException 400 message)
    | Raise (UndefinedFunctionError message) => Raise (HTTPException 400 message)
    | answered => answered
    end;
  count ← fetchrow_count (sql count_query);
  get_table_geojson_result properties return_geometry rows.1 rows.2 count.

End Answer.

End WithEnvironment.
End Utilities.

(** ** api/routers/collections/router.py *)

Module Router.
Section WithEnvironment.
Context `{Environment}.

(** *** GET items *)

(** The handler's view of the request: the raw query string as ordered
    pairs, and the declared parameters FastAPI has already decoded. *)
Record ItemsRequest : Type := mkItemsRequest {
  query_params : list (string * string);
  bbox : option string;
  limit : Z;
  offset : Z;
  properties : string;
  sortby : string;
  sortdesc : Z;
  cql_filter : option string;
  srid : Z;
  return_geometry : bool
}.

(** The keyword arguments with which [items] calls
    [utilities.get_table_geojson]. The handler names the filter text
    [cql_filter]; the helper's parameter for it is called [filter]. *)
Record GeojsonCall : Type := mkGeojsonCall {
  call_schema : string;
  call_table : string;
  call_limit : Z;
  call_offset : Z;
  call_properties : string;
  call_sortby : string;
  call_sortdesc : Z;
  call_bbox : option string;
  call_cql_filter : option string;
  call_srid : Z;
  call_return_geometry : bool
}.

Definition blacklist_query_parameters : list string :=
  ["bbox"; "limit"; "offset"; "properties"; "sortby"; "sortdesc"; "cql_filter"; "srid"].

(** [request.query_params[key]]: the last value given for [key]. The code
    reads it only for keys it found in the query string. *)
Definition query_param (params : list (string * string)) (key : string) : string :=
  foldl (λ found kv, if String.eqb kv.1 key then kv.2 else found) "" params.

(** The names in the query string that are not declared parameters. *)
Definition new_query_parameters (params : list (string * string)) : list string :=
  List.filter (λ query, negb (str_in query blacklist_query_parameters)) (params.*1).

Definition items_field_query (schema table : string) : string :=
  nl +:+
  "            SELECT column_name" +:+ nl +:+
  "            FROM information_schema.columns" +:+ nl +:+
  "            WHERE table_name = '" +:+ table +:+ "'" +:+ nl +:+
  "            AND table_schema = '" +:+ schema +:+ "';" +:+ nl +:+
  "        ".

(** [properties == "*"]: every catalog column, double-quoted and
    comma-separated. *)
Definition all_properties (db_fields : list string) : string :=
  drop_last (foldl (λ properties column, properties +:+ dq +:+ column +:+ dq +:+ ",") "" db_fields).

(** The first entry of an explicit projection that is not a column. *)
Definition first_unknown_property (properties : string) (fields : list string) : option string :=
  List.find (λ property, negb (str_in property fields)) (split "," properties).

(** One equality per catalog column named in the query string. *)
Definition column_where_parameters (params : list (string * string)) (db_fields : list string) : string :=
  if new_query_parameters params is [] then ""
  else
    foldl (λ where_parameters column,
             if str_in column (new_query_parameters params) then
               (if bool_decide (String.length where_parameters ≠ 0%nat)
                then where_parameters +:+ " AND " else where_parameters) +:+
               " " +:+ column +:+ " = '" +:+ query_param params column +:+ "' "
             else where_parameters)
          "" db_fields.

(** [items], up to the call of [utilities.get_table_geojson]: the keyword
    arguments of that call, or the exception raised before it. *)
Definition items (schema table : string) (request : ItemsRequest) : outcome GeojsonCall :=
  db_fields ← fetch_column_names (items_field_query schema table);
  let fields := db_fields in
  properties ←
    (if String.eqb (properties request) "*" then Return (all_properties db_fields)
     else if bool_decide (0 < String.length (properties request))%nat then
       match first_unknown_property (properties request) fields with
       | Some property =>
           Raise (HTTPException 400
                    ("Column: " +:+ property +:+ " is not a column for " +:+ schema +:+ "." +:+ table +:+ "."))
       | None => Return (properties request)
       end
     else Return (properties request));
  let column_where_parameters := column_where_parameters (query_params request) db_fields in
  cql_filter ←
    match cql_filter request with
    | Some text =>
        let field_mapping := Utilities.field_mapping_of db_fields in
        match parse text with
        | Raise _ => Raise (HTTPException 400 "Invalid operator used in cql_filter.")
        | Return tree =>
            match to_sql_where tree field_mapping with
            | Raise (KeyError _) =>
                Raise (HTTPException 400
                         ("Invalid column in cql_filter parameter for " +:+ schema +:+ "." +:+ table +:+ "."))
            | Raise e => Raise e
            | Return where_text => Return (Some where_text)
            end
        end
    | None => Return None
    end;
  let cql_filter :=
    match cql_filter with
    | Some where_text =>
        if negb (String.eqb column_where_parameters "")
        then Some (where_text +:+ " AND " +:+ column_where_parameters)
        else Some where_text
    | None =>
        if negb (String.eqb column_where_parameters "") then Some column_where_parameters else None
    end in
  Return (mkGeojsonCall schema table (limit request) (offset request) properties
          (sortby request) (sortdesc request) (bbox request) cql_filter
          (srid request) (return_geometry request)).

(** *** GET tile *)

Inductive body : Type :=
| FileBody (path : string)
| ContentBody (content : bytes).

Record Response : Type := mkResponse {
  response_body : body;
  media_type : string;
  status_code : Z;
  headers : list (string * string)
}.

(** [headers[name]]. *)
Definition header (name : string) (response : Response) : option string :=
  snd <$> List.find (λ kv, String.eqb kv.1 name) (headers response).

Definition tile (schema table tile_matrix_set_id : string) (tile_matrix tile_row tile_col : Z)
    (fields cql_filter : option string) : M Response :=
  '(pbf, tile_cache) ← Utilities.get_tile schema table tile_matrix_set_id
                          tile_matrix tile_row tile_col fields cql_filter;
  let response_code := 200 in
  let max_cache_age :=
    if bool_decide (fields ≠ None) && bool_decide (cql_filter ≠ None) then 0
    else CACHE_AGE_IN_SECONDS in
  if tile_cache : bool then
    mret (mkResponse
            (FileBody (cwd +:+ "/cache/" +:+ schema +:+ "_" +:+ table +:+ "/" +:+ tile_matrix_set_id +:+
                       "/" +:+ str_int tile_matrix +:+ "/" +:+ str_int tile_row +:+ "/" +:+ str_int tile_col))
            "application/vnd.mapbox-vector-tile" response_code
            [("Cache-Control", "max-age=" +:+ str_int max_cache_age); ("tile-cache", "true")])
  else
    let response_code := if bool_decide (pbf = []) then 204 else response_code in
    mret (mkResponse (ContentBody pbf) "application/vnd.mapbox-vector-tile" response_code
            [("Cache-Control", "max-age=" +:+ str_int max_cache_age); ("tile-cache", "false")]).

(** *** DELETE tiles/cache *)

Definition delete_tile_cache (schema table : string) : M string :=
  Utilities.delete_tile_cache schema table;;
  mret "deleted".

(** *** GET items: the links of the answer *)

Record Link : Type := mkLink {
  link_type : string;
  link_rel : string;
  link_title : string;
  link_href : string
}.

(** [for param in request.query_params]: every name once, in the order of
    its first occurrence. *)
Fixpoint query_keys (seen : list string) (params : list (string * string)) : list string :=
  match params with
  | [] => []
  | (key, _) :: rest =>
      if str_in key seen then query_keys seen rest
      else key :: query_keys (key :: seen) rest
  end.

Definition extra_params (params : list (string * string)) : string :=
  foldl (λ extra param,
           if negb (String.eqb param "offset")
           then extra +:+ "&" +:+ param +:+ "=" +:+ query_param params param
           else extra)
        "" (query_keys [] params).

(** The links [items] attaches to the result of [get_table_geojson]:
    [base_url] is [str(request.base_url)], [url_path] is [request.url.path]
    and [self_url] is [request.url._url]. *)
Definition items_links (schema table base_url url_path self_url : string)
    (params : list (string * string)) (limit offset numberReturned numberMatched : Z)
    : list Link :=
  let links :=
    [mkLink "application/geo+json" "self" "This document as GeoJSON" self_url;
     mkLink "application/json" "collection" (schema +:+ "." +:+ table)
       (base_url +:+ "api/v1/collections/" +:+ schema +:+ "." +:+ table)] in
  let extra_params := extra_params params in
  let links :=
    if bool_decide (numberReturned + offset < numberMatched) then
      let href := drop_last base_url +:+ url_path +:+ "?offset=" +:+ str_int (offset + limit) in
      let href := if bool_decide (0 < String.length extra_params)%nat
                  then href +:+ extra_params else href in
      (links ++ [mkLink "application/geo+json" "next" "items (next)" href])%list
    else links in
  if bool_decide (-1 < offset - limit) then
    let href := drop_last base_url +:+ url_path +:+ "?offset=" +:+ str_int (offset - limit) in
    let href := if bool_decide (0 < String.length extra_params)%nat
                then href +:+ extra_params else href in
    (links ++ [mkLink "application/geo+json" "prev" "items (prev)" href])%list
  else links.

(** *** GET items: the call of [get_table_geojson] and the answer *)

(** The keywords of the call at the end of [items]. *)
Definition items_call_keywords : list string :=
  ["schema"; "table"; "limit"; "offset"; "properties"; "sortby"; "sortdesc"; "bbox";
   "cql_filter"; "srid"; "return_geometry"; "app"].

(** What [items] returns: the answer of [get_table_geojson] with the
    keys [id], [title] and [links] added (the time stamp is left out). *)
Record ItemsAnswer : Type := mkItemsAnswer {
  answer_results : Utilities.FeatureCollection;
  answer_id : string;
  answer_title : string;
  answer_links : list Link
}.

Section Answer.

Variable fetchrow_features : string → outcome (option (list Utilities.GeoFeature)).
Variable fetch_records : string → outcome (list (gmap string value)).

(** [items] as a whole: the checks and the filter text of [items], the
    binding of the keywords of its call to the parameters of
    [get_table_geojson], the body of that function, then the links. No
    keyword names the parameter [filter], so the body would run with its
    default [None]. *)
Definition items_answer (schema table base_url url_path self_url : string)
    (request : ItemsRequest) : outcome ItemsAnswer :=
  call ← items schema table request;
  bind_keywords Utilities.get_table_geojson_signature items_call_keywords;;
  results ←
    Utilities.get_table_geojson fetchrow_features fetch_records
      (call_schema call) (call_table call) None (call_bbox call) (call_limit call)
      (call_offset call) (call_properties call) (call_sortby call) (call_sortdesc call)
      (call_srid call) (call_return_geometry call);
  Return
    (mkItemsAnswer results (schema +:+ "." +:+ table) (schema +:+ "." +:+ table)
       (items_links schema table base_url url_path self_url (query_params request)
          (limit request) (offset request)
          (Utilities.numberReturned results) (Utilities.numberMatched results))).

End Answer.

(** *** GET tiles/cache_size *)

(** The byte count [size] that [get_tile_cache_size] adds up over
    [os.walk]: the sizes of the files beneath the table's cache directory.
    The handler answers this count scaled to gigabytes. *)
Definition tile_cache_bytes (schema table : string) (w : World) : Z :=
  let cache_path := cwd +:+ "/cache/" +:+ schema +:+ "_" +:+ table in
  if path_exists w cache_path then
    foldr (λ (kv : string * node) size,
             match kv.2 with
             | File content =>
                 if is_prefix (cache_path +:+ "/") kv.1
                 then size + Z.of_nat (length content) else size
             | Dir => size
             end)
          0 (map_to_list (fs w))
  else 0.

(** *** The handlers that change rows or columns *)

(** A GeoJSON feature as the handlers read it: [feature_id] is the text
    [f"{info.id}"], [feature_properties] the dictionary in insertion order. *)
Record Feature : Type := mkFeature {
  feature_id : string;
  feature_properties : list (string * value);
  feature_geometry : geometry
}.

Definition typed_field_query (schema table : string) : string :=
  nl +:+
  "        SELECT column_name, data_type" +:+ nl +:+
  "        FROM information_schema.columns" +:+ nl +:+
  "        WHERE table_name = '" +:+ table +:+ "'" +:+ nl +:+
  "        AND table_schema = '" +:+ schema +:+ "'" +:+ nl +:+
  "        AND column_name != 'geom'" +:+ nl +:+
  "        AND column_name != 'gid';" +:+ nl +:+
  "        ".

(** [db_column_types[name]["type"]]; the code reads it only for names it
    found among the columns. *)
Definition db_column_types (db_fields : list (string * string)) : gmap string string :=
  foldl (λ types field, <[field.1 := field.2]> types) ∅ db_fields.

Definition not_a_column (schema table column string_columns : string) : exn :=
  HTTPException 400
    ("Column: " +:+ column +:+ " is not a column for " +:+ schema +:+ "." +:+ table +:+ "." +:+ nl +:+
     "                    Please use one of the following columns. " +:+ string_columns).

Definition not_used (column : string) : exn :=
  HTTPException 400
    ("Column " +:+ column +:+ " was not used. Add " +:+ column +:+ " to your properties.").

(** The first column left with ["used": False]. *)
Definition first_unused (db_columns used : list string) : option string :=
  List.find (λ column, negb (str_in column used)) db_columns.

Definition geom_query (schema table : string) (shape : geometry) (gid : string) : string :=
  nl +:+
  "            UPDATE " +:+ dq +:+ schema +:+ dq +:+ "." +:+ dq +:+ table +:+ dq +:+ nl +:+
  "            SET geom = ST_GeomFromGeoJSON('" +:+ json_dumps_geojson shape +:+ "')" +:+ nl +:+
  "            WHERE gid = " +:+ gid +:+ ";" +:+ nl +:+
  "        ".

Definition exist_query (schema table : string) (id : Z) : string :=
  nl +:+
  "        SELECT count(*)" +:+ nl +:+
  "        FROM " +:+ dq +:+ schema +:+ dq +:+ "." +:+ dq +:+ table +:+ dq +:+ nl +:+
  "        WHERE gid = " +:+ str_int id +:+ nl +:+
  "        ".

(** The loop of [create_item] over [info.properties]: the column list, the
    value list and the columns marked used. *)
Fixpoint create_item_columns (schema table : string) (db_columns : list string)
    (types : gmap string string) (props : list (string * value))
    (input_columns values : string) (used : list string)
    : outcome (string * string * list string) :=
  match props with
  | [] => Return (input_columns, values, used)
  | (column, v) :: rest =>
      if negb (str_in column db_columns)
      then Raise (not_a_column schema table column (join "," db_columns))
      else
        let input_columns := input_columns +:+ dq +:+ column +:+ dq +:+ "," in
        values ←
          (if str_in (default "" (types !! column)) NUMERIC_FIELDS
           then number ← str_float v; Return (values +:+ number +:+ ",")
           else Return (values +:+ "'" +:+ str_value v +:+ "',"));
        create_item_columns schema table db_columns types rest input_columns values (column :: used)
  end.

(** The database work of [create_item]: the gid of the new row. *)
Definition create_item_statements (schema table : string) (info : Feature) : outcome Z :=
  db_fields ← fetch_columns (typed_field_query schema table);
  let db_columns := db_fields.*1 in
  '(input_columns, values, used) ←
    create_item_columns schema table db_columns (db_column_types db_fields)
      (feature_properties info) "" "" [];
  match first_unused db_columns used with
  | Some column => Raise (not_used column)
  | None =>
      let input_columns := drop_last input_columns in
      let values := drop_last values in
      let query :=
        nl +:+
        "            INSERT INTO " +:+ dq +:+ schema +:+ dq +:+ "." +:+ dq +:+ table +:+ dq +:+ " (" +:+ input_columns +:+ ")" +:+ nl +:+
        "            VALUES (" +:+ values +:+ ")" +:+ nl +:+
        "            RETURNING gid;" +:+ nl +:+
        "        " in
      result ← fetch_returning_gid query;
      gid ← index result 0;
      execute (geom_query schema table (feature_geometry info) (str_int gid));;
      Return gid
  end.

(** The loop of [update_item] and of [modify_item] over [info.properties]:
    the [SET] clauses appended to [query], and the columns marked used
    (which [modify_item] does not track). *)
Fixpoint set_clauses (schema table : string) (db_columns : list string)
    (types : gmap string string) (props : list (string * value))
    (query : string) (used : list string) : outcome (string * list string) :=
  match props with
  | [] => Return (query, used)
  | (column, v) :: rest =>
      if negb (str_in column db_columns)
      then Raise (not_a_column schema table column (join "," db_columns))
      else
        let query :=
          if str_in (default "" (types !! column)) NUMERIC_FIELDS
          then query +:+ column +:+ " = " +:+ str_value v +:+ ","
          else query +:+ column +:+ " = '" +:+ str_value v +:+ "'," in
        set_clauses schema table db_columns types rest query (column :: used)
  end.

Definition update_head (schema table : string) : string :=
  nl +:+
  "            UPDATE " +:+ dq +:+ schema +:+ dq +:+ "." +:+ dq +:+ table +:+ dq +:+ nl +:+
  "            SET " +:+ nl +:+
  "        ".

Definition update_item_statements (schema table : string) (id : Z) (info : Feature) : outcome unit :=
  db_fields ← fetch_columns (typed_field_query schema table);
  let db_columns := db_fields.*1 in
  count ← fetchrow_count (exist_query schema table id);
  if count =? 0
  then Raise (HTTPException 400 ("Item " +:+ feature_id info +:+ " does not exist."))
  else
    '(query, used) ←
      set_clauses schema table db_columns (db_column_types db_fields)
        (feature_properties info) (update_head schema table) [];
    match first_unused db_columns used with
    | Some column => Raise (not_used column)
    | None =>
        let query := drop_last query in
        let query := query +:+ " WHERE gid = " +:+ feature_id info +:+ ";" in
        execute query;;
        execute (geom_query schema table (feature_geometry info) (str_int id))
    end.

Definition modify_item_statements (schema table : string) (id : Z) (info : Feature) : outcome unit :=
  db_fields ← fetch_columns (typed_field_query schema table);
  let db_columns := db_fields.*1 in
  count ← fetchrow_count (exist_query schema table id);
  if count =? 0
  then Raise (HTTPException 400 ("Item " +:+ feature_id info +:+ " does not exist."))
  else
    '(query, _) ←
      set_clauses schema table db_columns (db_column_types db_fields)
        (feature_properties info) (update_head schema table) [];
    let query := drop_last query in
    let query := query +:+ " WHERE gid = " +:+ str_int id +:+ ";" in
    execute query;;
    execute (geom_query schema table (feature_geometry info) (str_int id)).

Definition delete_item_statements (schema table : string) (id : Z) : outcome unit :=
  execute
    (nl +:+
     "            DELETE FROM " +:+ dq +:+ schema +:+ dq +:+ "." +:+ dq +:+ table +:+ dq +:+ nl +:+
     "            WHERE gid = " +:+ str_int id +:+ ";" +:+ nl +:+
     "        ").

Definition add_column_statements (schema table column_name column_type : string) : outcome unit :=
  execute
    (nl +:+
     "            ALTER TABLE " +:+ dq +:+ schema +:+ dq +:+ "." +:+ dq +:+ table +:+ dq +:+ nl +:+
     "            ADD COLUMN " +:+ dq +:+ column_name +:+ dq +:+ " " +:+ column_type +:+ ";" +:+ nl +:+
     "        ").

Definition delete_column_statements (schema table column : string) : outcome unit :=
  execute
    (nl +:+
     "            ALTER TABLE " +:+ dq +:+ schema +:+ dq +:+ "." +:+ dq +:+ table +:+ dq +:+ nl +:+
     "            DROP COLUMN IF EXISTS " +:+ dq +:+ column +:+ dq +:+ ";" +:+ nl +:+
     "        ").

(** The two lines every one of these handlers runs after its last
    statement: [if os.path.exists(dir): shutil.rmtree(dir)]. *)
Definition drop_table_cache (schema table : string) : M unit :=
  present ← os_path_exists (cwd +:+ "/cache/" +:+ schema +:+ "_" +:+ table);
  if present : bool then shutil_rmtree (cwd +:+ "/cache/" +:+ schema +:+ "_" +:+ table)
  else mret tt.

(** What a handler answers: the feature, or [{"status": True}]. *)
Inductive answer : Type :=
| Item (info : Feature)
| Status (status : bool).

(** [create_item]. The row of [RETURNING gid] has the single key [gid], so
    the assignment [info.id = result[0]["id"]] after the invalidation raises
    [KeyError]. *)
Definition create_item (schema table : string) (info : Feature) : M answer :=
  gid ← lift (create_item_statements schema table info);
  drop_table_cache schema table;;
  raise (KeyError "id").

Definition update_item (schema table : string) (id : Z) (info : Feature) : M answer :=
  lift (update_item_statements schema table id info);;
  drop_table_cache schema table;;
  mret (Item info).

Definition modify_item (schema table : string) (id : Z) (info : Feature) : M answer :=
  lift (modify_item_statements schema table id info);;
  drop_table_cache schema table;;
  mret (Item info).

Definition delete_item (schema table : string) (id : Z) : M answer :=
  lift (delete_item_statements schema table id);;
  drop_table_cache schema table;;
  mret (Status true).

Definition add_column (schema table column_name column_type : string) : M answer :=
  lift (add_column_statements schema table column_name column_type);;
  drop_table_cache schema table;;
  mret (Status true).

Definition delete_column (schema table column : string) : M answer :=
  lift (delete_column_statements schema table column);;
  drop_table_cache schema table;;
  mret (Status true).

(** The six requests that change a table, and their dispatch. *)
Inductive mutation : Type :=
| CreateItem (info : Feature)
| UpdateItem (id : Z) (info : Feature)
| ModifyItem (id : Z) (info : Feature)
| DeleteItem (id : Z)
| AddColumn (column_name column_type : string)
| DeleteColumn (column : string).

Definition handle (schema table : string) (m : mutation) : M answer :=
  match m with
  | CreateItem info => create_item schema table info
  | UpdateItem id info => update_item schema table id info
  | ModifyItem id info => modify_item schema table id info
  | DeleteItem id => delete_item schema table id
  | AddColumn column_name column_type => add_column schema table column_name column_type
  | DeleteColumn column => delete_column schema table column
  end.

(** The database work of a mutation, without its result. *)
Definition statements (schema table : string) (m : mutation) : outcome unit :=
  match m with
  | CreateItem info => create_item_statements schema table info ≫= λ _, Return tt
  | UpdateItem id info => update_item_statements schema table id info
  | ModifyItem id info => modify_item_statements schema table id info
  | DeleteItem id => delete_item_statements schema table id
  | AddColumn column_name column_type => add_column_statements schema table column_name column_type
  | DeleteColumn column => delete_column_statements schema table column
  end.

End WithEnvironment.

(** *** POST bins, numeric_breaks and custom_break_values *)

(** One entry of [results]: [{"min": .., "max": .., "count": ..}]. *)
Record Break (bound : Type) : Type := mkBreak {
  break_min : bound;
  break_max : bound;
  break_count : Z
}.

Arguments mkBreak {bound} _ _ _.
Arguments break_min {bound} _.
Arguments break_max {bound} _.
Arguments break_count {bound} _.

Section WithNumbers.
Context `{Environment} `{Numbers}.

(** [models.BinsModel], [models.NumericBreaksModel], [models.BinModel]
    and [models.CustomBreaksModel], and the names of their attributes. *)
Record BinsModel : Type := mkBinsModel {
  bins_cql_filter : option string;
  number_of_bins : Z;
  bins_column : string
}.

Definition BinsModel_attributes : list string := ["cql_filter"; "number_of_bins"; "column"].

Record NumericBreaksModel : Type := mkNumericBreaksModel {
  breaks_cql_filter : option string;
  number_of_breaks : Z;
  breaks_column : string;
  break_type : string
}.

Definition NumericBreaksModel_attributes : list string :=
  ["cql_filter"; "number_of_breaks"; "column"; "break_type"].

Record BinModel : Type := mkBinModel {
  bin_min : number;
  bin_max : number
}.

Record CustomBreaksModel : Type := mkCustomBreaksModel {
  custom_cql_filter : option string;
  custom_column : string;
  breaks : list BinModel
}.

Definition CustomBreaksModel_attributes : list string := ["cql_filter"; "column"; "breaks"].

(** [f"{x}"] of a number or [None]. *)
Definition str_optional_number (x : option number) : string :=
  match x with
  | Some n => str_number n
  | None => "None"
  end.

(** The count query of the three handlers. *)
Definition break_count_query (schema table column minimum maximum : string) : string :=
  nl +:+
  "                SELECT COUNT(*)" +:+ nl +:+
  "                FROM " +:+ dq +:+ schema +:+ dq +:+ "." +:+ dq +:+ table +:+ dq +:+ nl +:+
  "                WHERE " +:+ dq +:+ column +:+ dq +:+ " > " +:+ minimum +:+ nl +:+
  "                AND " +:+ dq +:+ column +:+ dq +:+ " <= " +:+ maximum +:+ nl +:+
  "            ".

(** [except asyncpg.exceptions.UndefinedColumnError]: status 400. *)
Definition undefined_column {A : Type} (schema table column : string) (answered : outcome A)
    : outcome A :=
  match answered with
  | Raise UndefinedColumnError =>
      Raise (HTTPException 400
               ("Column: " +:+ column +:+ " does not exist for " +:+ schema +:+ "." +:+ table +:+ "."))
  | _ => answered
  end.

(** [bins]. The helper is called with the keywords [schema], [table],
    [info] and [con], and in the loop with [no_where] as well. *)
Definition bins (schema table : string) (info : BinsModel) : outcome (list (Break number)) :=
  let query :=
    nl +:+
    "            SELECT MIN(" +:+ dq +:+ bins_column info +:+ dq +:+ "),MAX(" +:+ dq +:+ bins_column info +:+ dq +:+ ")" +:+ nl +:+
    "            FROM " +:+ dq +:+ schema +:+ dq +:+ "." +:+ dq +:+ table +:+ dq +:+ nl +:+
    "        " in
  where_clause ←
    Utilities.generate_where_clause_call ["schema"; "table"; "info"; "con"]
      BinsModel_attributes Utilities.no_where_attributes false;
  let query := query +:+ where_clause in
  data ← undefined_column schema table (bins_column info) (fetchrow_min_max query);
  match data with
  | (Some data_min, Some data_max) =>
      group_size ← number_div (number_sub data_max data_min) (number_of_bins info);
      mapM (λ group,
              let '(minimum, maximum) :=
                if group =? 0 then (data_min, group_size)
                else (number_mul group group_size, number_mul (group + 1) group_size) in
              let query :=
                break_count_query schema table (bins_column info)
                  (str_number minimum) (str_number maximum) in
              where_clause ←
                Utilities.generate_where_clause_call ["schema"; "table"; "info"; "con"; "no_where"]
                  BinsModel_attributes Utilities.no_where_attributes true;
              count ← fetchrow_count (query +:+ where_clause);
              Return (mkBreak minimum maximum count))
           (seqZ 0 (number_of_bins info))
  | _ => Raise TypeError
  end.

(** [numeric_breaks]. *)
Definition numeric_breaks (schema table : string) (info : NumericBreaksModel)
    : outcome (list (Break (option number))) :=
  let query :=
    if String.eqb (break_type info) "quantile" then
      nl +:+
      "                SELECT " +:+ break_type info +:+ "_bins(array_agg(CAST(" +:+ dq +:+ breaks_column info +:+ dq +:+ " AS integer)), " +:+ str_int (number_of_breaks info) +:+ ") " +:+ nl +:+
      "                FROM " +:+ dq +:+ schema +:+ dq +:+ "." +:+ dq +:+ table +:+ dq +:+ nl +:+
      "            "
    else
      nl +:+
      "                SELECT " +:+ break_type info +:+ "_bins(array_agg(" +:+ dq +:+ breaks_column info +:+ dq +:+ "), " +:+ str_int (number_of_breaks info) +:+ ") " +:+ nl +:+
      "                FROM " +:+ dq +:+ schema +:+ dq +:+ "." +:+ dq +:+ table +:+ dq +:+ nl +:+
      "            " in
  where_clause ←
    Utilities.generate_where_clause_call ["schema"; "table"; "info"; "con"]
      NumericBreaksModel_attributes Utilities.no_where_attributes false;
  break_points ←
    undefined_column schema table (breaks_column info) (fetchrow_bins (query +:+ where_clause));
  let min_query :=
    nl +:+
    "            SELECT MIN(" +:+ dq +:+ breaks_column info +:+ dq +:+ ")" +:+ nl +:+
    "            FROM " +:+ dq +:+ schema +:+ dq +:+ "." +:+ dq +:+ table +:+ dq +:+ nl +:+
    "        " in
  where_clause ←
    Utilities.generate_where_clause_call ["schema"; "table"; "info"; "con"]
      NumericBreaksModel_attributes Utilities.no_where_attributes false;
  min_number ← fetchrow_min (min_query +:+ where_clause);
  let max_query :=
    nl +:+
    "            SELECT MAX(" +:+ dq +:+ breaks_column info +:+ dq +:+ ")" +:+ nl +:+
    "            FROM " +:+ dq +:+ schema +:+ dq +:+ "." +:+ dq +:+ table +:+ dq +:+ nl +:+
    "        " in
  where_clause ←
    Utilities.generate_where_clause_call ["schema"; "table"; "info"; "con"]
      NumericBreaksModel_attributes Utilities.no_where_attributes false;
  max_table_number ← fetchrow_max (max_query +:+ where_clause);
  mapM (λ '(index, max_number),
          let '(minimum, maximum) :=
            if bool_decide (index = 0%nat) then (min_number, Some max_number)
            else if bool_decide (index + 1 = length break_points)%nat then
              (break_points !! (index - 1)%nat, max_table_number)
            else (break_points !! (index - 1)%nat, Some max_number) in
          let query :=
            break_count_query schema table (breaks_column info)
              (str_optional_number minimum) (str_optional_number maximum) in
          where_clause ←
            Utilities.generate_where_clause_call ["schema"; "table"; "info"; "con"; "no_where"]
              NumericBreaksModel_attributes Utilities.no_where_attributes true;
          count ← fetchrow_count (query +:+ where_clause);
          Return (mkBreak minimum maximum count))
       (imap pair break_points).

(** [custom_break_values]. *)
Definition custom_break_values (schema table : string) (info : CustomBreaksModel)
    : outcome (list (Break number)) :=
  mapM (λ break_range,
          let minimum := bin_min break_range in
          let maximum := bin_max break_range in
          let query :=
            break_count_query schema table (custom_column info)
              (str_number minimum) (str_number maximum) in
          where_clause ←
            Utilities.generate_where_clause_call ["schema"; "table"; "info"; "con"; "no_where"]
              CustomBreaksModel_attributes Utilities.no_where_attributes true;
          count ← undefined_column schema table (custom_column info)
                    (fetchrow_count (query +:+ where_clause));
          Return (mkBreak minimum maximum count))
       (breaks info).

End WithNumbers.

End Router.

(** ** A concrete environment: the [public.states] table of the tests *)

Module Fixture.

(** Modelled from the spec: [api/filter/evaluate.py] is not among the
    sources. Its [to_sql_where] is taken as the compiler of section 4.2 over
    the comparison and logical nodes of the FilterAST of section 3: every
    column is looked up in the field mapping, a column that is absent raises
    [KeyError], and (design notes, section 9) the literal is concatenated
    into the text. *)
Inductive FilterAST : Type :=
| Comparison (column operator literal : string)
| And (lhs rhs : FilterAST)
| Or (lhs rhs : FilterAST)
| Not (child : FilterAST).

Fixpoint evaluate (tree : FilterAST) (field_mapping : gmap string string) : outcome string :=
  match tree with
  | Comparison column operator literal =>
      match field_mapping !! column with
      | None => Raise (KeyError column)
      | Some mapped => Return (mapped +:+ " " +:+ operator +:+ " '" +:+ literal +:+ "'")
      end
  | And lhs rhs =>
      l ← evaluate lhs field_mapping; r ← evaluate rhs field_mapping;
      Return ("(" +:+ l +:+ " AND " +:+ r +:+ ")")
  | Or lhs rhs =>
      l ← evaluate lhs field_mapping; r ← evaluate rhs field_mapping;
      Return ("(" +:+ l +:+ " OR " +:+ r +:+ ")")
  | Not child =>
      c ← evaluate child field_mapping;
      Return ("NOT " +:+ c)
  end.

(** A stand-in for the ECQL parser: its answers on the filters the tests
    send ([tests/test_collections.py]). [state_name='New York'] and
    [state_names='New York'] are one comparison each; the tests show
    [=state_name='New York'], [state_name=='New York'] and
    [state_name LI 'New York'] refused. On any other text the stand-in
    refuses too, which says nothing of the library: no lemma applies it
    there. *)
Definition parsed_in_the_tests : list (string * FilterAST) :=
  [("state_name='New York'", Comparison "state_name" "=" "New York");
   ("state_names='New York'", Comparison "state_names" "=" "New York")].

Definition parse_of_the_tests (text : string) : outcome FilterAST :=
  match List.find (λ row : string * FilterAST, String.eqb row.1 text) parsed_in_the_tests with
  | Some row => Return row.2
  | None => Raise ParseError
  end.

(** Property values: text and integers. *)
Inductive json_value : Type :=
| Text (s : string)
| Number (n : Z).

Definition states_columns : list string := ["gid"; "state_name"; "population"; "geom"].

Definition a_tile : bytes := [x1a; x02; x78; x02].

#[local] Instance states : Environment := {|
  cwd := "/srv/app";
  CACHE_AGE_IN_SECONDS := 3600;
  MAX_FEATURES_PER_TILE := 100000;
  ast := FilterAST;
  parse := parse_of_the_tests;
  sql_to_sql_where := evaluate;
  to_sql_where := evaluate;
  fetch_column_names := λ text,
    if String.eqb text (Router.items_field_query "public" "states") then Return states_columns
    else if String.eqb text (Utilities.tile_field_query "public" "states")
    then Return ["gid"; "state_name"; "population"]
    else Return [];
  fetch_columns := λ text,
    if String.eqb text (Router.typed_field_query "public" "states")
    then Return [("state_name", "text"); ("population", "integer")]
    else Return [];
  fetchval_tile := λ _, Return a_tile;
  fetch_returning_gid := λ _, Return [52];
  fetchrow_count := λ _, Return 1;
  execute := λ _, Return tt;
  value := json_value;
  str_value := λ v, match v with Text s => s | Number n => str_int n end;
  str_float := λ v, match v with Text _ => Raise ValueError | Number n => Return (str_int n +:+ ".0") end;
  geometry := string;
  json_dumps_geojson := λ shape, shape
|}.

(** Worlds: nothing cached; tile 0/0/0 of [public.states] cached; nothing
    cached and the volume full. *)
Definition empty_world : World := mkWorld ∅ false [].

Definition cached_world : World :=
  mkWorld {[ Utilities.cache_file "public" "states" "WorldCRS84Quad" 0 0 0 := File a_tile ]} false [].

Definition full_world : World := mkWorld ∅ true [].

End Fixture.

(** * Properties *)

(** ** Strings and paths *)

Section StringFacts.

Lemma append_cons (ch : ascii) (a b : string) : String ch a +:+ b = String ch (a +:+ b).
Proof. reflexivity. Qed.

Lemma append_assoc (a b c : string) : (a +:+ b) +:+ c = a +:+ (b +:+ c).
Proof.
  induction a as [|ch a IH]; [reflexivity |].
  now rewrite !append_cons, IH.
Qed.

Lemma append_empty_r (a : string) : a +:+ "" = a.
Proof.
  induction a as [|ch a IH]; [reflexivity |].
  now rewrite append_cons, IH.
Qed.

Lemma is_prefix_append (p s : string) : is_prefix p (p +:+ s) = true.
Proof.
  induction p as [|ch p IH]; [reflexivity |].
  rewrite append_cons. simpl. rewrite Ascii.eqb_refl. exact IH.
Qed.

Lemma is_prefix_inv (p s : string) : is_prefix p s = true → ∃ r, s = p +:+ r.
Proof.
  revert s. induction p as [|a p IH]; intros s Hp.
  - now exists s.
  - destruct s as [|b s]; simpl in Hp; [discriminate |].
    apply andb_true_iff in Hp as [Hab Hps].
    apply Ascii.eqb_eq in Hab as ->.
    destruct (IH s Hps) as [r ->]. now exists r.
Qed.

Lemma is_substring_refl (s : string) : is_substring s s.
Proof. exists "", "". simpl. now rewrite append_empty_r. Qed.

Lemma is_substring_append_l (t s pre : string) : is_substring t s → is_substring t (pre +:+ s).
Proof.
  intros (a & b & ->). exists (pre +:+ a), b. now rewrite append_assoc.
Qed.

Lemma is_substring_append_r (t s post : string) : is_substring t s → is_substring t (s +:+ post).
Proof.
  intros (a & b & ->). exists a, (b +:+ post). now rewrite !append_assoc.
Qed.

End StringFacts.

Create HintDb substring.
#[local] Hint Resolve is_substring_refl is_substring_append_l is_substring_append_r : substring.

(** ** The file system *)

Section FileSystemFacts.

Lemma under_refl (d : string) : under d d.
Proof. now left. Qed.

Lemma under_trans (d p k : string) : under d p → under p k → under d k.
Proof.
  intros [-> | Hdp] Hpk; [assumption |].
  right. apply is_prefix_inv in Hdp as [r ->].
  destruct Hpk as [-> | Hpk].
  - apply is_prefix_append.
  - apply is_prefix_inv in Hpk as [s ->].
    rewrite !(append_assoc (d +:+ "/")). apply is_prefix_append.
Qed.

Lemma path_exists_true (w : World) (p : string) :
  path_exists w p = true ↔ ∃ k n, fs w !! k = Some n ∧ under p k.
Proof.
  unfold path_exists. rewrite bool_decide_eq_true. apply map_Exists_lookup.
Qed.

Lemma path_exists_false (w : World) (p : string) :
  path_exists w p = false ↔ ∀ k n, fs w !! k = Some n → ¬ under p k.
Proof.
  rewrite <- not_true_iff_false, path_exists_true. split.
  - intros Hno k n Hk Hu. apply Hno. eauto.
  - intros Hall (k & n & Hk & Hu). exact (Hall k n Hk Hu).
Qed.

(** Nothing exists beneath a path that does not exist. *)
Lemma path_exists_false_under (w : World) (d p : string) :
  under d p → path_exists w d = false → path_exists w p = false.
Proof.
  rewrite !path_exists_false. intros Hdp Hd k n Hk Hpk.
  exact (Hd k n Hk (under_trans _ _ _ Hdp Hpk)).
Qed.

(** After [rmtree d] nothing exists at or beneath [d]. *)
Lemma rmtree_absent (d p : string) (w : World) :
  under d p → path_exists (shutil_rmtree d w).2 p = false.
Proof.
  intros Hdp. apply path_exists_false. simpl. intros k n Hk Hpk.
  apply map_lookup_filter_Some in Hk as [_ Hnot]. simpl in Hnot.
  apply Hnot. exact (under_trans _ _ _ Hdp Hpk).
Qed.

End FileSystemFacts.

(** ** Invalidation of the tile cache *)

Section TileCacheInvalidation.
Context `{Environment}.

Lemma cache_file_under_dir (schema table tms : string) (z x y : Z) :
  under (Utilities.cache_dir schema table) (Utilities.cache_file schema table tms z x y).
Proof.
  right.
  replace (Utilities.cache_file schema table tms z x y)
    with ((Utilities.cache_dir schema table +:+ "/") +:+
          (tms +:+ "/" +:+ str_int z +:+ "/" +:+ str_int x +:+ "/" +:+ str_int y)).
  - apply is_prefix_append.
  - unfold Utilities.cache_dir, Utilities.cache_file. now rewrite !append_assoc.
Qed.

(** [delete_tile_cache] returns, and leaves nothing at or beneath the
    table's cache directory. *)
Lemma delete_tile_cache_returns (schema table : string) (w : World) :
  (Utilities.delete_tile_cache schema table w).1 = Return tt.
Proof.
  unfold Utilities.delete_tile_cache, mbind, M_bind, os_path_exists.
  now destruct (path_exists w _).
Qed.

Lemma delete_tile_cache_absent (schema table p : string) (w : World) :
  under (Utilities.cache_dir schema table) p →
  path_exists (Utilities.delete_tile_cache schema table w).2 p = false.
Proof.
  intros Hp.
  unfold Utilities.delete_tile_cache, mbind, M_bind, os_path_exists.
  destruct (path_exists w (Utilities.cache_dir schema table)) eqn:Hdir.
  - now apply rmtree_absent.
  - simpl. exact (path_exists_false_under _ _ _ Hp Hdir).
Qed.

Lemma delete_tile_cache_noop (schema table : string) (w : World) :
  path_exists w (Utilities.cache_dir schema table) = false →
  Utilities.delete_tile_cache schema table w = (Return tt, w).
Proof.
  intros Hdir.
  unfold Utilities.delete_tile_cache, mbind, M_bind, os_path_exists.
  now rewrite Hdir.
Qed.

(** The handlers spell the same two lines in place. *)
Lemma drop_table_cache_eq (schema table : string) :
  Router.drop_table_cache schema table = Utilities.delete_tile_cache schema table.
Proof. reflexivity. Qed.

(** C10. [delete_tile_cache] is total and idempotent: it returns for every
    schema and table; where the table has no cache directory it changes
    nothing; after it neither the directory nor any tile file of the table
    exists; and calling it again, any number of times, changes nothing
    more. The endpoint built on it answers ["deleted"]. *)
Theorem delete_tile_cache_total_idempotent (schema table : string) (w : World) :
  let after := (Utilities.delete_tile_cache schema table w).2 in
  (Utilities.delete_tile_cache schema table w).1 = Return tt ∧
  (Router.delete_tile_cache schema table w).1 = Return "deleted" ∧
  (path_exists w (Utilities.cache_dir schema table) = false →
   Utilities.delete_tile_cache schema table w = (Return tt, w)) ∧
  path_exists after (Utilities.cache_dir schema table) = false ∧
  (∀ tms z x y, path_exists after (Utilities.cache_file schema table tms z x y) = false) ∧
  (∀ n : nat,
     Nat.iter n (λ w', (Utilities.delete_tile_cache schema table w').2) after = after).
Proof.
  intros after.
  assert (Hdir : path_exists after (Utilities.cache_dir schema table) = false)
    by (apply delete_tile_cache_absent, under_refl).
  repeat split.
  - apply delete_tile_cache_returns.
  - unfold Router.delete_tile_cache, mbind, M_bind.
    pose proof (delete_tile_cache_returns schema table w) as Hret.
    destruct (Utilities.delete_tile_cache schema table w) as [[[]|e] w']; simpl in *;
      [reflexivity | discriminate].
  - apply delete_tile_cache_noop.
  - exact Hdir.
  - intros. apply delete_tile_cache_absent, cache_file_under_dir.
  - induction n as [|n IH]; [reflexivity |].
    simpl. rewrite IH. now rewrite (delete_tile_cache_noop _ _ _ Hdir).
Qed.

(** Whatever a mutation's handler answers or raises once its statements
    have run, it has dropped the table's cache directory. *)
Lemma handle_after_statements (schema table : string) (m : Router.mutation) (w : World) :
  Router.statements schema table m = Return tt →
  (Router.handle schema table m w).2 = (Utilities.delete_tile_cache schema table w).2.
Proof.
  intros Hst. rewrite <- drop_table_cache_eq.
  destruct m; simpl in Hst; simpl;
    unfold Router.create_item, Router.update_item, Router.modify_item, Router.delete_item,
      Router.add_column, Router.delete_column, mbind, M_bind, lift, raise, mret, M_ret.
  - destruct (Router.create_item_statements schema table info); [| discriminate].
    now destruct (Router.drop_table_cache schema table w) as [[[]|e] w'].
  - rewrite Hst. now destruct (Router.drop_table_cache schema table w) as [[[]|e] w'].
  - rewrite Hst. now destruct (Router.drop_table_cache schema table w) as [[[]|e] w'].
  - rewrite Hst. now destruct (Router.drop_table_cache schema table w) as [[[]|e] w'].
  - rewrite Hst. now destruct (Router.drop_table_cache schema table w) as [[[]|e] w'].
  - rewrite Hst. now destruct (Router.drop_table_cache schema table w) as [[[]|e] w'].
Qed.

(** C7. Item create, update, modify and delete, add-column and drop-column
    each invalidate the whole tile cache of their table: once the handler's
    statements have run, no tile file of the table exists, whatever the
    tile matrix set, zoom, row and column, and the cache directory is gone. *)
Theorem mutation_invalidates_tile_cache (schema table : string) (m : Router.mutation)
    (w : World) :
  Router.statements schema table m = Return tt →
  path_exists (Router.handle schema table m w).2 (Utilities.cache_dir schema table) = false ∧
  ∀ (tms : string) (z x y : Z),
    path_exists (Router.handle schema table m w).2
      (Utilities.cache_file schema table tms z x y) = false.
Proof.
  intros Hst. rewrite (handle_after_statements _ _ _ _ Hst). split.
  - apply delete_tile_cache_absent, under_refl.
  - intros. apply delete_tile_cache_absent, cache_file_under_dir.
Qed.

End TileCacheInvalidation.

(** The witness: deleting item 3 of [public.states] while tile 0/0/0 is
    cached. *)
Lemma mutation_invalidates_tile_cache_witness :
  path_exists Fixture.cached_world
    (Utilities.cache_file (H := Fixture.states) "public" "states" "WorldCRS84Quad" 0 0 0) = true ∧
  path_exists
    (Router.handle (H := Fixture.states) "public" "states" (Router.DeleteItem 3) Fixture.cached_world).2
    (Utilities.cache_file (H := Fixture.states) "public" "states" "WorldCRS84Quad" 0 0 0) = false.
Proof.
  split; [vm_compute; reflexivity |].
  apply (mutation_invalidates_tile_cache (H := Fixture.states) "public" "states"
           (Router.DeleteItem 3) Fixture.cached_world).
  reflexivity.
Defined.

(** ** Serving and caching tiles *)

Section TileCache.
Context `{Environment}.

(** A cached file is answered before the request is looked at. *)
Lemma get_tile_hit (schema table tms : string) (z x y : Z)
    (fields cql_filter : option string) (w : World) :
  path_exists w (Utilities.cache_file schema table tms z x y) = true →
  Utilities.get_tile schema table tms z x y fields cql_filter w = (Return ([], true), w).
Proof.
  intros Hhit. unfold Utilities.get_tile, mbind, M_bind, os_path_exists.
  now rewrite Hhit.
Qed.

Lemma ops_since_refl (w : World) : ops_since w w = [].
Proof. unfold ops_since. apply drop_all. Qed.

Lemma ops_since_app (w : World) (fs' : gmap string node) (b : bool) (ops : list fs_op) :
  ops_since w (mkWorld fs' b (oplog w ++ ops)) = ops.
Proof. unfold ops_since. simpl. apply drop_app_length. Qed.

(** The write step of [get_tile]: when it returns, it has written the
    file, and nothing else but possibly the directory. *)
Lemma write_step_returns (dir file : string) (tile : bytes) (w w' : World) (u : unit) :
  ((present ← os_path_exists dir;
    (if negb present then try_except_OSError (os_makedirs dir) else mret tt);;
    open_wb_write file tile) : M unit) w = (Return u, w') →
  WriteFile file tile ∈ ops_since w w'.
Proof.
  unfold mbind, M_bind, os_path_exists, try_except_OSError, os_makedirs, open_wb_write,
    mret, M_ret.
  destruct (path_exists w dir) eqn:Hdir; cbv beta iota; cbn [negb].
  - destruct (full w); [discriminate |].
    destruct (path_exists w (dirname file)); cbn [negb]; [| discriminate].
    intros [= <- <-]. rewrite ops_since_app. apply list_elem_of_singleton. reflexivity.
  - destruct (full w) eqn:Hfull; cbv beta iota.
    + rewrite Hfull. discriminate.
    + rewrite Hdir. cbv beta iota. cbn [full].
      destruct (path_exists _ (dirname file)); cbn [negb]; [| discriminate].
      intros [= <- <-]. cbn [oplog]. rewrite <- app_assoc, ops_since_app.
      apply list_elem_of_In. simpl. auto.
Qed.

(** C4, amended. For every tile request that completes, the encoded tile is
    written to the cache file of its key if and only if the tile was not
    already cached, [fields] is unset, [cql_filter] is unset and the
    configured cache age is greater than zero. *)
Theorem cache_write_iff_miss_and_gate (schema table tms : string) (z x y : Z)
    (fields cql_filter : option string) (w w' : World) (tile : bytes) (served : bool) :
  Utilities.get_tile schema table tms z x y fields cql_filter w = (Return (tile, served), w') →
  WriteFile (Utilities.cache_file schema table tms z x y) tile ∈ ops_since w w' ↔
  path_exists w (Utilities.cache_file schema table tms z x y) = false ∧
  fields = None ∧ cql_filter = None ∧ 0 < CACHE_AGE_IN_SECONDS.
Proof.
  unfold Utilities.get_tile.
  unfold mbind at 1, M_bind at 1, os_path_exists at 1.
  destruct (path_exists w (Utilities.cache_file schema table tms z x y)) eqn:Hhit.
  - intros [= <- <- <-]. rewrite ops_since_refl. split.
    + intros Hin. inversion Hin.
    + intros [? _]. discriminate.
  - unfold mbind at 1, M_bind at 1, lift at 1.
    destruct (fetch_column_names _) as [db_fields|e]; [| discriminate].
    unfold mbind at 1, M_bind at 1, lift at 1.
    destruct (Utilities.tile_query _ _ _ _ _ _ _ _) as [query|e]; [| discriminate].
    unfold mbind at 1, M_bind at 1, lift at 1.
    destruct (fetchval_tile query) as [data|e]; [| discriminate].
    unfold mbind at 1, M_bind at 1.
    unfold Utilities.cache_write_gate.
    destruct (decide (fields = None)) as [Hf|Hf];
      destruct (decide (cql_filter = None)) as [Hc|Hc];
      destruct (decide (0 < CACHE_AGE_IN_SECONDS)) as [Ha|Ha];
      rewrite ?(bool_decide_eq_true_2 _ Hf), ?(bool_decide_eq_false_2 _ Hf),
        ?(bool_decide_eq_true_2 _ Hc), ?(bool_decide_eq_false_2 _ Hc),
        ?(bool_decide_eq_true_2 _ Ha), ?(bool_decide_eq_false_2 _ Ha); simpl;
      try (intros [= <- <- <-]; rewrite ops_since_refl; split;
           [intros Hin; inversion Hin | intros (_ & ? & ? & ?); contradiction]).
    match goal with
    | |- context [match ?step w with _ => _ end] => destruct (step w) as [[u|e] w1] eqn:Hstep
    end; [| discriminate].
    intros [= <- <- <-]. split; [auto |].
    intros _. exact (write_step_returns _ _ _ _ _ _ Hstep).
Qed.

(** The maximum age [tile] announces, and the two indicators every answer
    carries. *)
Lemma tile_cache_control (schema table tms : string) (z x y : Z)
    (fields cql_filter : option string) (w w' : World) (r : Router.Response) :
  Router.tile schema table tms z x y fields cql_filter w = (Return r, w') →
  Router.header "Cache-Control" r =
    Some ("max-age=" +:+
          str_int (if bool_decide (fields ≠ None) && bool_decide (cql_filter ≠ None)
                   then 0 else CACHE_AGE_IN_SECONDS)) ∧
  (Router.header "tile-cache" r = Some "true" ∨ Router.header "tile-cache" r = Some "false").
Proof.
  unfold Router.tile, mbind, M_bind.
  destruct (Utilities.get_tile _ _ _ _ _ _ _ _ w) as [[[pbf served]|e] w1]; [| discriminate].
  destruct served; intros [= <- <-]; split; try reflexivity; [now left | now right].
Qed.

(** With the volume full, a request that would store its tile raises. *)
Lemma get_tile_full_raises (schema table tms : string) (z x y : Z) (w : World)
    (db_fields : list string) (query : string) (tile : bytes) :
  full w = true →
  path_exists w (Utilities.cache_file schema table tms z x y) = false →
  0 < CACHE_AGE_IN_SECONDS →
  fetch_column_names (Utilities.tile_field_query schema table) = Return db_fields →
  Utilities.tile_query schema table z x y None None db_fields = Return query →
  fetchval_tile query = Return tile →
  Utilities.get_tile schema table tms z x y None None w = (Raise OSError, w).
Proof.
  intros Hfull Hmiss Hage Hfields Hquery Htile.
  unfold Utilities.get_tile, mbind, M_bind, os_path_exists, lift.
  rewrite Hmiss, Hfields, Hquery, Htile.
  unfold Utilities.cache_write_gate.
  rewrite (bool_decide_eq_true_2 _ Hage), !(bool_decide_eq_true_2 (None = None) eq_refl).
  cbn [andb]. unfold try_except_OSError, os_makedirs, open_wb_write, mret, M_ret.
  destruct (path_exists w (Utilities.cache_file_dir schema table tms z x));
    cbn [negb]; cbv beta iota; rewrite ?Hfull; cbv beta iota; rewrite ?Hfull; reflexivity.
Qed.

End TileCache.

(** *** On the [public.states] fixture *)

Section TileCacheOnStates.
#[local] Existing Instance Fixture.states.
Import Fixture.

(** C2 (the code departs from the claim). Tile 0/0/0 of [public.states] is
    cached. A request for that tile with a [cql_filter], or with [fields],
    is answered with the cached file: [get_tile] returns the empty payload
    and the served-from-cache mark without sending any query, and [tile]
    answers with the cached path. The same requests on an empty cache are
    answered by the live query. *)
Theorem cached_tile_answers_dynamic_request :
  Utilities.get_tile "public" "states" "WorldCRS84Quad" 0 0 0
    None (Some "state_name='New York'") cached_world = (Return ([], true), cached_world) ∧
  Utilities.get_tile "public" "states" "WorldCRS84Quad" 0 0 0
    (Some "state_name") None cached_world = (Return ([], true), cached_world) ∧
  (Router.tile "public" "states" "WorldCRS84Quad" 0 0 0
     None (Some "state_name='New York'") cached_world).1 =
    Return (Router.mkResponse
              (Router.FileBody "/srv/app/cache/public_states/WorldCRS84Quad/0/0/0")
              "application/vnd.mapbox-vector-tile" 200
              [("Cache-Control", "max-age=3600"); ("tile-cache", "true")]) ∧
  Utilities.get_tile "public" "states" "WorldCRS84Quad" 0 0 0
    None (Some "state_name='New York'") empty_world = (Return (a_tile, false), empty_world).
Proof. repeat split; vm_compute; reflexivity. Qed.

(** The counterexample to C4 as stated: tile 0/0/0 is cached, the request
    has neither [fields] nor [cql_filter], the cache age is 3600, and
    nothing is written. *)
Lemma cache_hit_writes_nothing :
  Utilities.cache_write_gate None None = true ∧
  Utilities.get_tile "public" "states" "WorldCRS84Quad" 0 0 0 None None cached_world =
    (Return ([], true), cached_world) ∧
  ops_since cached_world
    (Utilities.get_tile "public" "states" "WorldCRS84Quad" 0 0 0 None None cached_world).2 = [].
Proof. repeat split; vm_compute; reflexivity. Qed.

(** The witness of C4: the same request on an empty cache stores the tile. *)
Lemma cache_write_iff_miss_and_gate_witness :
  WriteFile (Utilities.cache_file "public" "states" "WorldCRS84Quad" 0 0 0) a_tile ∈
    ops_since empty_world
      (Utilities.get_tile "public" "states" "WorldCRS84Quad" 0 0 0 None None empty_world).2.
Proof.
  apply (cache_write_iff_miss_and_gate "public" "states" "WorldCRS84Quad" 0 0 0 None None
           empty_world _ a_tile false); [vm_compute; reflexivity |].
  repeat split; vm_compute; reflexivity.
Defined.

(** C5 (the code departs from the claim). With [fields] alone, or with
    [cql_filter] alone, the tile is computed by the live query and the
    answer announces the configured cache age, 3600, not 0; only with both
    does it announce 0. Every answer carries both indicators. *)
Theorem dynamic_tile_announces_cache_age :
  (Router.tile "public" "states" "WorldCRS84Quad" 0 0 0 (Some "state_name") None empty_world).1 =
    Return (Router.mkResponse (Router.ContentBody a_tile)
              "application/vnd.mapbox-vector-tile" 200
              [("Cache-Control", "max-age=3600"); ("tile-cache", "false")]) ∧
  (Router.tile "public" "states" "WorldCRS84Quad" 0 0 0
     None (Some "state_name='New York'") empty_world).1 =
    Return (Router.mkResponse (Router.ContentBody a_tile)
              "application/vnd.mapbox-vector-tile" 200
              [("Cache-Control", "max-age=3600"); ("tile-cache", "false")]) ∧
  (Router.tile "public" "states" "WorldCRS84Quad" 0 0 0
     (Some "state_name") (Some "state_name='New York'") empty_world).1 =
    Return (Router.mkResponse (Router.ContentBody a_tile)
              "application/vnd.mapbox-vector-tile" 200
              [("Cache-Control", "max-age=0"); ("tile-cache", "false")]).
Proof. repeat split; vm_compute; reflexivity. Qed.

(** C9 (the code departs from the claim). Nothing is cached and the volume
    is full. The live query for tile 0/0/0 returns the tile, the failure to
    create the directory is swallowed, and the failure to write the file
    is not: [get_tile] raises [OSError] and so does [tile]. The same tile
    requested with [fields], which is not stored, is answered. *)
Theorem cache_write_failure_fails_request :
  Utilities.get_tile "public" "states" "WorldCRS84Quad" 0 0 0 None None full_world =
    (Raise OSError, full_world) ∧
  (Router.tile "public" "states" "WorldCRS84Quad" 0 0 0 None None full_world).1 =
    Raise OSError ∧
  Utilities.get_tile "public" "states" "WorldCRS84Quad" 0 0 0 (Some "state_name") None full_world =
    (Return (a_tile, false), full_world).
Proof. repeat split; vm_compute; reflexivity. Qed.

End TileCacheOnStates.

(** ** Assembling the items query *)

Section ItemsQuery.
Context `{Environment}.

Lemma is_substring_nonempty (c : ascii) (t s : string) :
  is_substring (String c t) s → String.eqb s "" = false.
Proof.
  intros (pre & post & ->). apply String.eqb_neq.
  destruct pre; rewrite !append_cons; discriminate.
Qed.

(** The fold of [column_where_parameters] keeps what it has and adds the
    equality of every column the query string names. *)
Lemma column_where_fold (params : list (string * string)) (names db_fields : list string)
    (column start : string) :
  let equality := " " +:+ column +:+ " = '" +:+ Router.query_param params column +:+ "' " in
  str_in column names = true →
  is_substring equality start ∨ column ∈ db_fields →
  is_substring equality
    (foldl (λ where_parameters column,
              if str_in column names then
                (if bool_decide (String.length where_parameters ≠ 0%nat)
                 then where_parameters +:+ " AND " else where_parameters) +:+
                " " +:+ column +:+ " = '" +:+ Router.query_param params column +:+ "' "
              else where_parameters)
           start db_fields).
Proof.
  intros equality Hnamed. revert start.
  induction db_fields as [|field rest IH]; intros start [Hstart | Hin]; simpl.
  - exact Hstart.
  - inversion Hin.
  - apply IH. left. destruct (str_in field names); [| exact Hstart].
    destruct (bool_decide _); auto with substring.
  - apply elem_of_cons in Hin as [<- | Hin]; [| apply IH; now right].
    apply IH. left. rewrite Hnamed.
    apply is_substring_append_l, is_substring_refl.
Qed.

Lemma column_where_parameters_contains (params : list (string * string))
    (db_fields : list string) (column : string) :
  column ∈ db_fields →
  column ∈ Router.new_query_parameters params →
  is_substring (" " +:+ column +:+ " = '" +:+ Router.query_param params column +:+ "' ")
    (Router.column_where_parameters params db_fields).
Proof.
  intros Hfield Hnamed. unfold Router.column_where_parameters.
  destruct (Router.new_query_parameters params) as [|name names] eqn:Hnames;
    [inversion Hnamed |].
  apply column_where_fold; [| now right].
  unfold str_in. now apply bool_decide_eq_true.
Qed.

(** Finds a text that was appended as a whole: peel what was appended
    after it, then what stands before it. *)
Ltac find_where :=
  repeat first
    [ solve [apply is_substring_append_l, is_substring_refl]
    | apply is_substring_append_r ].

(** Where [get_table_geojson] puts its [filter]. *)
Lemma filter_is_concatenated (schema table text : string) (bbox : option string)
    (limit offset : Z) (properties sortby : string) (sortdesc srid : Z)
    (return_geometry : bool) (page count : statement) :
  Utilities.get_table_geojson_query schema table (Some text) bbox limit offset properties
    sortby sortdesc srid return_geometry = Return (page, count) →
  is_substring ("WHERE " +:+ text) (sql page) ∧
  is_substring ("WHERE " +:+ text) (sql count) ∧
  bound page = [] ∧ bound count = [].
Proof.
  unfold Utilities.get_table_geojson_query.
  destruct bbox as [box|]; unfold mbind, outcome_bind, mret, outcome_ret.
  - destruct (index (split "," box) 0); [| discriminate].
    destruct (index (split "," box) 1); [| discriminate].
    destruct (index (split "," box) 2); [| discriminate].
    destruct (index (split "," box) 3); [| discriminate].
    intros [= <- <-]. cbn [sql bound].
    split; [| split; [| split; reflexivity]].
    + destruct (negb (String.eqb sortby "gid")), return_geometry; find_where.
    + find_where.
  - intros [= <- <-]. cbn [sql bound].
    split; [| split; [| split; reflexivity]].
    + destruct (negb (String.eqb sortby "gid")), return_geometry; find_where.
    + find_where.
Qed.

(** The names [items] turns into column equalities, said of the request:
    the names of the query string that are none of the eight declared
    parameters of the black list. *)
Lemma new_query_parameters_spec (params : list (string * string)) (column : string) :
  column ∈ Router.new_query_parameters params ↔
  column ∈ params.*1 ∧
  column ∉ ["bbox"; "limit"; "offset"; "properties"; "sortby"; "sortdesc"; "cql_filter"; "srid"].
Proof.
  unfold Router.new_query_parameters, Router.blacklist_query_parameters, str_in.
  rewrite list_elem_of_In, filter_In, <- list_elem_of_In, negb_true_iff, bool_decide_eq_false.
  reflexivity.
Qed.

Lemma join_snoc (sep e : string) (done : list string) :
  join sep (done ++ [e])%list = if done is [] then e else join sep done +:+ sep +:+ e.
Proof.
  unfold join. induction done as [|x [|y done] IH]; [reflexivity | reflexivity |].
  change (String.concat sep ((x :: y :: done) ++ [e])%list)
    with (x +:+ sep +:+ String.concat sep ((y :: done) ++ [e])%list).
  rewrite IH.
  change (String.concat sep (x :: y :: done)) with (x +:+ sep +:+ String.concat sep (y :: done)).
  now rewrite !append_assoc.
Qed.

Lemma join_nonempty (sep : string) (parts : list string) :
  parts ≠ [] → Forall (λ part, String.length part ≠ 0%nat) parts →
  String.length (join sep parts) ≠ 0%nat.
Proof.
  unfold join. destruct parts as [|x [|y parts]]; [congruence | |]; intros _ Hparts;
    inversion_clear Hparts as [|? ? Hx _]; [exact Hx |].
  change (String.concat sep (x :: y :: parts)) with (x +:+ sep +:+ String.concat sep (y :: parts)).
  destruct x; [contradiction | rewrite append_cons; discriminate].
Qed.

(** The fold of [column_where_parameters] is a join: the equalities of the
    named columns, in catalog order, with [ AND ] between them. *)
Lemma column_where_fold_join (params : list (string * string)) (names db_fields done : list string) :
  let equality column :=
    " " +:+ column +:+ " = '" +:+ Router.query_param params column +:+ "' " in
  foldl (λ where_parameters column,
           if str_in column names then
             (if bool_decide (String.length where_parameters ≠ 0%nat)
              then where_parameters +:+ " AND " else where_parameters) +:+
             " " +:+ column +:+ " = '" +:+ Router.query_param params column +:+ "' "
           else where_parameters)
        (join " AND " (equality <$> done)) db_fields =
  join " AND " (equality <$> (done ++ filter (λ column, column ∈ names) db_fields)%list).
Proof.
  intros equality. revert done.
  induction db_fields as [|column rest IH]; intros done.
  - now rewrite filter_nil, app_nil_r.
  - match goal with
    | |- foldl ?f ?a (column :: rest) = _ => change (foldl f a (column :: rest)) with (foldl f (f a column) rest)
    end.
    cbv beta. rewrite filter_cons.
    destruct (decide (column ∈ names)) as [Hin | Hout].
    + replace (str_in column names) with true
        by (symmetry; apply bool_decide_eq_true_2; exact Hin).
      replace (done ++ column :: filter (λ c, c ∈ names) rest)%list
        with ((done ++ [column]) ++ filter (λ c, c ∈ names) rest)%list
        by now rewrite <- app_assoc.
      rewrite <- IH. f_equal.
      rewrite fmap_app. change (equality <$> [column]) with [equality column].
      rewrite join_snoc. fold (equality column).
      destruct done as [|first done].
      * now rewrite (bool_decide_eq_false_2 (String.length (join " AND " (equality <$> [])) ≠ 0%nat))
          by (intros Hlen; now apply Hlen).
      * rewrite bool_decide_eq_true_2; [now rewrite append_assoc |].
        apply join_nonempty; [discriminate |].
        apply Forall_fmap, list.Forall_forall. intros c _. discriminate.
    + replace (str_in column names) with false
        by (symmetry; apply bool_decide_eq_false_2; exact Hout).
      apply IH.
Qed.

Lemma column_where_parameters_join (params : list (string * string)) (db_fields : list string) :
  Router.column_where_parameters params db_fields =
  join " AND "
    ((λ column, " " +:+ column +:+ " = '" +:+ Router.query_param params column +:+ "' ") <$>
     filter (λ column,
               column ∈ params.*1 ∧
               column ∉ ["bbox"; "limit"; "offset"; "properties"; "sortby"; "sortdesc";
                         "cql_filter"; "srid"]) db_fields).
Proof.
  assert (filter (λ column,
                    column ∈ params.*1 ∧
                    column ∉ ["bbox"; "limit"; "offset"; "properties"; "sortby"; "sortdesc";
                              "cql_filter"; "srid"]) db_fields =
          filter (λ column, column ∈ Router.new_query_parameters params) db_fields) as ->
    by (apply list_filter_iff; intros column; symmetry; apply new_query_parameters_spec).
  unfold Router.column_where_parameters.
  destruct (Router.new_query_parameters params) as [|name names] eqn:Hnames.
  - replace (filter (λ column, column ∈ []) db_fields) with (@nil string); [reflexivity |].
    symmetry. induction db_fields as [|column rest IH]; [reflexivity |].
    rewrite filter_cons. destruct (decide (column ∈ [])) as [Hin |]; [inversion Hin | exact IH].
  - exact (column_where_fold_join params (name :: names) db_fields []).
Qed.

(** C1, amended. No literal of an items request is bound as a parameter.
    The names of the query string that are catalog columns and none of the
    eight declared parameters each give [ column = 'value' ], with the
    value as the request gave it; these equalities, in catalog order and
    joined by [ AND ], are the text [items] passes under the keyword
    [cql_filter], alone when the request has no filter and after the
    compiled filter and [ AND ] when it has one. [get_table_geojson], for
    its part, concatenates whatever filter text it is given after [WHERE]
    into the page query and into the count query, and sends both with no
    bound parameter. *)
Theorem literals_are_concatenated (schema table : string) (request : Router.ItemsRequest)
    (call : Router.GeojsonCall) (db_fields : list string) :
  fetch_column_names (Router.items_field_query schema table) = Return db_fields →
  Router.items schema table request = Return call →
  let params := Router.query_params request in
  let equality (column : string) :=
    " " +:+ column +:+ " = '" +:+ Router.query_param params column +:+ "' " in
  let named :=
    filter (λ column,
              column ∈ params.*1 ∧
              column ∉ ["bbox"; "limit"; "offset"; "properties"; "sortby"; "sortdesc";
                        "cql_filter"; "srid"]) db_fields in
  let equalities := join " AND " (equality <$> named) in
  (named ≠ [] →
     (Router.cql_filter request = None → Router.call_cql_filter call = Some equalities) ∧
     (∀ text : string, Router.cql_filter request = Some text →
        ∃ (tree : ast) (where_text : string),
          parse text = Return tree ∧
          to_sql_where tree (Utilities.field_mapping_of db_fields) = Return where_text ∧
          Router.call_cql_filter call = Some (where_text +:+ " AND " +:+ equalities))) ∧
  (∀ column : string, column ∈ named → is_substring (equality column) equalities) ∧
  (∀ (schema' table' text : string) (bbox : option string) (limit offset : Z)
     (properties sortby : string) (sortdesc srid : Z) (return_geometry : bool)
     (page count : statement),
     Utilities.get_table_geojson_query schema' table' (Some text) bbox limit offset properties
       sortby sortdesc srid return_geometry = Return (page, count) →
     is_substring ("WHERE " +:+ text) (sql page) ∧
     is_substring ("WHERE " +:+ text) (sql count) ∧
     bound page = [] ∧ bound count = []).
Proof.
  intros Hfields Hitems params equality named equalities.
  assert (Router.column_where_parameters params db_fields = equalities) as Hjoin
    by apply column_where_parameters_join.
  split; [| split].
  - intros Hnamed.
    assert (String.eqb (Router.column_where_parameters params db_fields) "" = false) as Hnonempty.
    { rewrite Hjoin. apply String.eqb_neq. intros Hempty.
      apply (join_nonempty " AND " (equality <$> named)).
      - destruct named; [congruence | discriminate].
      - apply Forall_fmap, list.Forall_forall. intros c _. discriminate.
      - fold equalities. now rewrite Hempty. }
    revert Hitems. unfold Router.items, mbind, outcome_bind. rewrite Hfields.
    match goal with
    | |- context [match ?step with Return _ => _ | Raise _ => _ end] =>
        destruct step as [props|e]; [| discriminate]
    end.
    fold params. rewrite Hnonempty, Hjoin. cbn [negb].
    destruct (Router.cql_filter request) as [given|].
    + destruct (parse given) as [tree|e] eqn:Hparse; [| discriminate].
      destruct (to_sql_where tree _) as [where_text|e] eqn:Hwhere.
      * intros [= <-]. cbn [Router.call_cql_filter]. split; [discriminate |].
        intros text [= <-]. exists tree, where_text. now rewrite Hparse.
      * destruct e; discriminate.
    + intros [= <-]. cbn [Router.call_cql_filter]. split; [reflexivity | discriminate].
  - intros column Hcolumn. rewrite <- Hjoin.
    apply list_elem_of_filter in Hcolumn as [Hnamed Hfield].
    apply column_where_parameters_contains; [exact Hfield |].
    now apply new_query_parameters_spec.
  - intros schema' table' text bbox limit offset properties sortby sortdesc srid
      return_geometry page count Hquery.
    exact (filter_is_concatenated _ _ _ _ _ _ _ _ _ _ _ _ _ Hquery).
Qed.

(** The end of the page query, whatever stands before it. *)
Lemma page_tail_shape (head sortby : string) (sortdesc offset limit : Z) (return_geometry : bool) :
  (let query :=
     if negb (String.eqb sortby "gid") then
       let sort := if negb (sortdesc =? 1) then "desc" else "asc" in
       head +:+ " ORDER BY " +:+ sortby +:+ " " +:+ sort
     else head in
   let query := query +:+ " OFFSET " +:+ str_int offset +:+ " LIMIT " +:+ str_int limit in
   if return_geometry then query +:+ ") AS t;" else query) =
  head +:+
  (if String.eqb sortby "gid" then ""
   else " ORDER BY " +:+ sortby +:+ " " +:+ (if sortdesc =? 1 then "asc" else "desc")) +:+
  " OFFSET " +:+ str_int offset +:+ " LIMIT " +:+ str_int limit +:+
  (if return_geometry then ") AS t;" else "").
Proof.
  cbv zeta.
  destruct (String.eqb sortby "gid"), (sortdesc =? 1), return_geometry; cbn [negb];
    rewrite ?append_assoc, ?append_empty_r; reflexivity.
Qed.

(** C6, amended. [get_table_geojson] puts an [ORDER BY] clause between the
    filter and [OFFSET] exactly when [sortby] is not ["gid"]: with [sortby]
    left at ["gid"] the page query has no clause there, whatever [sortdesc]
    is, and the rows come in the order the database chooses. *)
Theorem order_by_only_for_explicit_sort (schema table : string) (filter bbox : option string)
    (limit offset : Z) (properties : string) (srid : Z) (return_geometry : bool) :
  (∃ e : exn, ∀ (sortby : string) (sortdesc : Z),
      Utilities.get_table_geojson_query schema table filter bbox limit offset properties
        sortby sortdesc srid return_geometry = Raise e) ∨
  (∃ (head : string) (count : statement), ∀ (sortby : string) (sortdesc : Z),
      Utilities.get_table_geojson_query schema table filter bbox limit offset properties
        sortby sortdesc srid return_geometry =
      Return
        (mkStatement
           (head +:+
            (if String.eqb sortby "gid" then ""
             else " ORDER BY " +:+ sortby +:+ " " +:+ (if sortdesc =? 1 then "asc" else "desc")) +:+
            " OFFSET " +:+ str_int offset +:+ " LIMIT " +:+ str_int limit +:+
            (if return_geometry then ") AS t;" else "")) [],
         count)).
Proof.
  unfold Utilities.get_table_geojson_query.
  destruct bbox as [box|]; unfold mbind, outcome_bind, mret, outcome_ret.
  - destruct (index (split "," box) 0); [| left; eexists; reflexivity].
    destruct (index (split "," box) 1); [| left; eexists; reflexivity].
    destruct (index (split "," box) 2); [| left; eexists; reflexivity].
    destruct (index (split "," box) 3); [| left; eexists; reflexivity].
    right. eexists _, _. intros sortby sortdesc.
    rewrite <- page_tail_shape. reflexivity.
  - right. eexists _, _. intros sortby sortdesc.
    rewrite <- page_tail_shape. reflexivity.
Qed.

(** [List.find] returns the first element that passes, and finds one as
    soon as some element passes. *)
Lemma find_first {A : Type} (P : A → bool) (l : list A) (x : A) :
  x ∈ l → P x = true →
  ∃ (before : list A) (y : A) (after : list A),
    l = (before ++ y :: after)%list ∧ Forall (λ z, P z = false) before ∧ P y = true ∧
    List.find P l = Some y.
Proof.
  intros Hin Hx. induction l as [|z l IH]; [inversion Hin |].
  destruct (P z) eqn:Hz.
  - exists [], z, l. cbn. rewrite Hz. auto.
  - apply elem_of_cons in Hin as [-> | Hin]; [congruence |].
    destruct (IH Hin) as (before & y & after & -> & Hbefore & Hy & Hfind).
    exists (z :: before), y, after. cbn. rewrite Hz. auto.
Qed.

(** C8, amended. With an explicit projection that has an entry which is
    not a column of the table, the request is refused with status 400 and a
    message that names the table and the first such entry. A filter that
    names a column absent from the catalog, so that its evaluation raises
    [KeyError], is refused with status 400 and a message that names the
    table only. *)
Theorem unknown_column_is_refused (schema table : string) (request : Router.ItemsRequest)
    (fields : list string) :
  fetch_column_names (Router.items_field_query schema table) = Return fields →
  (∀ entry : string,
     Router.properties request ≠ "*" → Router.properties request ≠ "" →
     (entry ∈ split "," (Router.properties request)) → (entry ∉ fields) →
     ∃ (before : list string) (property : string) (after : list string),
       split "," (Router.properties request) = (before ++ property :: after)%list ∧
       Forall (λ earlier, earlier ∈ fields) before ∧ (property ∉ fields) ∧
       Router.items schema table request =
         Raise (HTTPException 400
                  ("Column: " +:+ property +:+ " is not a column for " +:+
                   schema +:+ "." +:+ table +:+ "."))) ∧
  (∀ (text : string) (tree : ast) (column : string),
     (Router.properties request = "*" ∨ Router.properties request = "" ∨
        Router.first_unknown_property (Router.properties request) fields = None) →
     Router.cql_filter request = Some text →
     parse text = Return tree →
     to_sql_where tree (Utilities.field_mapping_of fields) = Raise (KeyError column) →
     Router.items schema table request =
       Raise (HTTPException 400
                ("Invalid column in cql_filter parameter for " +:+ schema +:+ "." +:+ table +:+ "."))).
Proof.
  intros Hfields. split.
  - intros entry Hstar Hempty Hentry Hunknown.
    destruct (find_first (λ property, negb (str_in property fields))
                (split "," (Router.properties request)) entry Hentry)
      as (before & property & after & Hsplit & Hbefore & Hproperty & Hfirst).
    { unfold str_in. now rewrite (bool_decide_eq_false_2 _ Hunknown). }
    exists before, property, after. split; [exact Hsplit |]. split; [| split].
    + revert Hbefore. apply List.Forall_impl. intros earlier Hearlier.
      apply negb_false_iff in Hearlier. now apply bool_decide_eq_true in Hearlier.
    + apply negb_true_iff in Hproperty. now apply bool_decide_eq_false in Hproperty.
    + unfold Router.items, mbind, outcome_bind. rewrite Hfields.
      apply String.eqb_neq in Hstar. rewrite Hstar.
      assert (0 < String.length (Router.properties request))%nat as Hlen
        by (destruct (Router.properties request); [contradiction | simpl; lia]).
      rewrite (bool_decide_eq_true_2 _ Hlen).
      unfold Router.first_unknown_property. now rewrite Hfirst.
  - intros text tree column Hprops Hfilter Hparse Heval.
    unfold Router.items, mbind, outcome_bind. rewrite Hfields.
    assert (∃ props,
      (if String.eqb (Router.properties request) "*" then Return (Router.all_properties fields)
       else if bool_decide (0 < String.length (Router.properties request))%nat then
         match Router.first_unknown_property (Router.properties request) fields with
         | Some property =>
             Raise (HTTPException 400
                      ("Column: " +:+ property +:+ " is not a column for " +:+
                       schema +:+ "." +:+ table +:+ "."))
         | None => Return (Router.properties request)
         end
       else Return (Router.properties request)) = Return props) as [props ->].
    { destruct Hprops as [-> | [-> | ->]]; [eexists; reflexivity .. |].
      destruct (String.eqb (Router.properties request) "*");
        [eexists; reflexivity |].
      destruct (bool_decide (0 < String.length (Router.properties request))%nat);
        eexists; reflexivity. }
    now rewrite Hfilter, Hparse, Heval.
Qed.

End ItemsQuery.

(** *** On the [public.states] fixture *)

Section ItemsQueryOnStates.
#[local] Existing Instance Fixture.states.
Import Fixture.

(** The counterexample to C1 as stated. The request
    [items?state_name=New York]: the text [items] passes under the keyword
    [cql_filter] holds the value between quotes. And [get_table_geojson]
    given that text as its [filter]: the page query and the count query
    hold the value inside their text, and nothing is bound. *)
Lemma literal_is_in_the_query_text :
  (∃ call : Router.GeojsonCall,
     Router.items "public" "states"
       (Router.mkItemsRequest [("state_name", "New York")] None 10 0 "*" "gid" 1 None 4326 true) =
       Return call ∧
     Router.call_cql_filter call = Some " state_name = 'New York' " ∧
     contains "'New York'" " state_name = 'New York' " = true) ∧
  (∃ page count : statement,
     Utilities.get_table_geojson_query "public" "states" (Some " state_name = 'New York' ") None
       10 0 "*" "gid" 1 4326 true = Return (page, count) ∧
     contains "'New York'" (sql page) = true ∧
     contains "'New York'" (sql count) = true ∧
     bound page = [] ∧ bound count = []).
Proof.
  split.
  - eexists. split; [vm_compute; reflexivity |]. split; [reflexivity |].
    vm_compute; reflexivity.
  - eexists _, _. split; [vm_compute; reflexivity |].
    repeat split; vm_compute; reflexivity.
Qed.

(** The witness of C1: the same request. *)
Lemma literals_are_concatenated_witness :
  ∃ call : Router.GeojsonCall,
    Router.items "public" "states"
      (Router.mkItemsRequest [("state_name", "New York")] None 10 0 "*" "gid" 1 None 4326 true) =
      Return call ∧
    Router.call_cql_filter call = Some " state_name = 'New York' ".
Proof.
  assert (Router.items "public" "states"
            (Router.mkItemsRequest [("state_name", "New York")] None 10 0 "*" "gid" 1 None 4326
               true) =
          Return (Router.mkGeojsonCall "public" "states" 10 0
                    (Router.all_properties states_columns) "gid" 1 None
                    (Some " state_name = 'New York' ") 4326 true)) as Hitems
    by (vm_compute; reflexivity).
  eexists. split; [exact Hitems |].
  pose proof (proj1 (proj1 (@literals_are_concatenated states "public" "states" _ _ states_columns
                              ltac:(vm_compute; reflexivity) Hitems)
                       ltac:(intros Hnone; vm_compute in Hnone; discriminate)) eq_refl)
    as Hfilter.
  rewrite Hfilter. vm_compute; reflexivity.
Defined.

(** The counterexample to C6 as stated: the request [items] with every
    parameter at its default. The handler passes [sortby = "gid"], and the
    page query has no [ORDER BY]. *)
Lemma default_items_query_has_no_order_by :
  ∃ (call : Router.GeojsonCall) (page count : statement),
    Router.items "public" "states"
      (Router.mkItemsRequest [] None 10 0 "*" "gid" 1 None 4326 true) = Return call ∧
    Router.call_sortby call = "gid" ∧
    Utilities.get_table_geojson_query "public" "states" (Router.call_cql_filter call)
      (Router.call_bbox call) (Router.call_limit call) (Router.call_offset call)
      (Router.call_properties call) (Router.call_sortby call) (Router.call_sortdesc call)
      (Router.call_srid call) (Router.call_return_geometry call) = Return (page, count) ∧
    contains "ORDER BY" (sql page) = false ∧
    contains " OFFSET 0 LIMIT 10" (sql page) = true.
Proof.
  eexists _, _, _. split; [vm_compute; reflexivity |].
  split; [reflexivity |]. split; [vm_compute; reflexivity |].
  split; vm_compute; reflexivity.
Qed.

(** The counterexample to C8 as stated: the filter
    [state_names='New York']. Its evaluation raises [KeyError] for
    [state_names]; the message of the refusal does not contain that name. *)
Lemma unknown_filter_column_is_not_named :
  parse "state_names='New York'" = Return (Comparison "state_names" "=" "New York") ∧
  to_sql_where (Comparison "state_names" "=" "New York")
    (Utilities.field_mapping_of states_columns) = Raise (KeyError "state_names") ∧
  Router.items "public" "states"
    (Router.mkItemsRequest [("properties", "state_name"); ("cql_filter", "state_names='New York'")]
       None 10 0 "state_name" "gid" 1 (Some "state_names='New York'") 4326 true) =
    Raise (HTTPException 400 "Invalid column in cql_filter parameter for public.states.") ∧
  contains "state_names" "Invalid column in cql_filter parameter for public.states." = false.
Proof. repeat split; vm_compute; reflexivity. Qed.

(** The witness of C8: the projection [state_names], then the filter
    [state_names='New York']. *)
Lemma unknown_column_is_refused_witness :
  Router.items "public" "states"
    (Router.mkItemsRequest [("properties", "state_names")]
       None 10 0 "state_names" "gid" 1 None 4326 true) =
    Raise (HTTPException 400
             ("Column: " +:+ "state_names" +:+ " is not a column for " +:+
              "public" +:+ "." +:+ "states" +:+ ".")) ∧
  Router.items "public" "states"
    (Router.mkItemsRequest [("cql_filter", "state_names='New York'")]
       None 10 0 "*" "gid" 1 (Some "state_names='New York'") 4326 true) =
    Raise (HTTPException 400
             ("Invalid column in cql_filter parameter for " +:+ "public" +:+ "." +:+ "states" +:+ ".")).
Proof.
  split.
  - destruct (proj1 (@unknown_column_is_refused states "public" "states"
                       (Router.mkItemsRequest [("properties", "state_names")]
                          None 10 0 "state_names" "gid" 1 None 4326 true)
                       states_columns ltac:(vm_compute; reflexivity))
                "state_names" ltac:(discriminate) ltac:(discriminate)
                ltac:(apply (proj1 (bool_decide_eq_true _)); vm_compute; reflexivity)
                ltac:(apply (proj1 (bool_decide_eq_false _)); vm_compute; reflexivity))
      as (before & property & after & Hsplit & _ & _ & Hrefused).
    vm_compute in Hsplit. destruct before as [|first before].
    + injection Hsplit as <- _. exact Hrefused.
    + injection Hsplit as _ Hrest. destruct before; discriminate Hrest.
  - refine (proj2 (@unknown_column_is_refused states "public" "states"
             (Router.mkItemsRequest [("cql_filter", "state_names='New York'")]
                None 10 0 "*" "gid" 1 (Some "state_names='New York'") 4326 true)
             states_columns _) "state_names='New York'"
             (Comparison "state_names" "=" "New York") "state_names" _ _ _ _).
    + vm_compute; reflexivity.
    + left. reflexivity.
    + reflexivity.
    + vm_compute; reflexivity.
    + vm_compute; reflexivity.
Defined.

End ItemsQueryOnStates.

(** ** Bins and breaks *)

Section BinsAndBreaks.
Context `{Environment} `{Numbers}.

(** A call of [generate_where_clause] that names [schema] among its
    keywords raises [TypeError], whatever the object and whatever else it
    names: the function has no such parameter. *)
Lemma schema_is_no_parameter (keywords attributes : list string) (info : Utilities.WhereInfo)
    (no_where : bool) :
  "schema" ∈ keywords →
  Utilities.generate_where_clause_call keywords attributes info no_where = Raise TypeError.
Proof.
  intros Hschema. unfold Utilities.generate_where_clause_call, bind_keywords.
  replace (forallb _ keywords) with false; [reflexivity |].
  symmetry. apply not_true_is_false. intros Hall.
  rewrite forallb_forall in Hall. apply list_elem_of_In in Hschema.
  specialize (Hall _ Hschema). vm_compute in Hall. discriminate.
Qed.

(** The loop of a handler stops at the first element whose step raises. *)
Lemma mapM_first_raises {A B : Type} (f : A → outcome B) (x : A) (l : list A) (e : exn) :
  f x = Raise e → mapM f (x :: l) = Raise e.
Proof.
  intros Hx. change (mapM f (x :: l)) with (y ← f x; k ← mapM f l; mret (y :: k)).
  now rewrite Hx.
Qed.

(** C3 (the code departs from the claim). [bins] answers no request with
    breaks. Its first statement after the text of the MIN and MAX query is
    the call [generate_where_clause(schema=.., table=.., info=.., con=..)],
    and that function declares [info], [con] and [no_where] only: the call
    raises [TypeError] before any query is sent, whatever the table, the
    column and the number of bins. The same call with the keywords [info]
    and [con] alone is bound. *)
Theorem bins_raises_type_error :
  (∀ (schema table : string) (info : Router.BinsModel),
     Router.bins schema table info = Raise TypeError) ∧
  bind_keywords Utilities.generate_where_clause_signature ["schema"; "table"; "info"; "con"] =
    Raise TypeError ∧
  bind_keywords Utilities.generate_where_clause_signature ["info"; "con"] = Return tt.
Proof.
  split; [| split; reflexivity].
  intros schema table info. unfold Router.bins.
  rewrite schema_is_no_parameter; [reflexivity |].
  apply (proj1 (bool_decide_eq_true _)). reflexivity.
Qed.

End BinsAndBreaks.

(** * Further properties of the code *)

(** ** The tile cache as a store *)

Section TileStore.
Context `{Environment}.

(** When the write step of [get_tile] returns, the file holds the tile. *)
Lemma write_step_stores (dir file : string) (tile : bytes) (w w' : World) (u : unit) :
  ((present ← os_path_exists dir;
    (if negb present then try_except_OSError (os_makedirs dir) else mret tt);;
    open_wb_write file tile) : M unit) w = (Return u, w') →
  fs w' !! file = Some (File tile).
Proof.
  unfold mbind, M_bind, os_path_exists, try_except_OSError, os_makedirs, open_wb_write,
    mret, M_ret.
  destruct (path_exists w dir) eqn:Hdir; cbv beta iota; cbn [negb].
  - destruct (full w); [discriminate |].
    destruct (path_exists w (dirname file)); cbn [negb]; [| discriminate].
    intros [= <- <-]. cbn [fs]. apply lookup_insert_eq.
  - destruct (full w) eqn:Hfull; cbv beta iota.
    + rewrite Hfull. discriminate.
    + rewrite Hdir. cbv beta iota. cbn [full].
      destruct (path_exists _ (dirname file)); cbn [negb]; [| discriminate].
      intros [= <- <-]. cbn [fs]. apply lookup_insert_eq.
Qed.

Lemma path_exists_of_lookup (w : World) (p : string) (n : node) :
  fs w !! p = Some n → path_exists w p = true.
Proof. intros Hp. apply path_exists_true. exists p, n. split; [exact Hp | apply under_refl]. Qed.

(** X1. Store then look up. When a request with neither [fields] nor
    [cql_filter] was answered by the live query and the cache age is
    positive, the cache file of its key holds exactly the tile that was
    answered, and the next request for that key, whatever its [fields] and
    [cql_filter], is answered from the cache and changes nothing. *)
Theorem stored_tile_is_served (schema table tms : string) (z x y : Z) (w w' : World)
    (tile : bytes) :
  0 < CACHE_AGE_IN_SECONDS →
  Utilities.get_tile schema table tms z x y None None w = (Return (tile, false), w') →
  fs w' !! Utilities.cache_file schema table tms z x y = Some (File tile) ∧
  ∀ fields cql_filter : option string,
    Utilities.get_tile schema table tms z x y fields cql_filter w' = (Return ([], true), w').
Proof.
  intros Hage Hrun.
  assert (fs w' !! Utilities.cache_file schema table tms z x y = Some (File tile)) as Hfile.
  { revert Hrun. unfold Utilities.get_tile.
    unfold mbind at 1, M_bind at 1, os_path_exists at 1.
    destruct (path_exists w (Utilities.cache_file schema table tms z x y)); [discriminate |].
    unfold mbind at 1, M_bind at 1, lift at 1.
    destruct (fetch_column_names _) as [db_fields|e]; [| discriminate].
    unfold mbind at 1, M_bind at 1, lift at 1.
    destruct (Utilities.tile_query _ _ _ _ _ _ _ _) as [query|e]; [| discriminate].
    unfold mbind at 1, M_bind at 1, lift at 1.
    destruct (fetchval_tile query) as [data|e]; [| discriminate].
    unfold mbind at 1, M_bind at 1.
    unfold Utilities.cache_write_gate.
    rewrite (bool_decide_eq_true_2 _ Hage), !(bool_decide_eq_true_2 (None = None) eq_refl).
    cbn [andb].
    match goal with
    | |- context [match ?step w with _ => _ end] => destruct (step w) as [[u|e] w1] eqn:Hstep
    end; [| discriminate].
    intros [= <- <-]. exact (write_step_stores _ _ _ _ _ _ Hstep). }
  split; [exact Hfile |].
  intros fields cql_filter. apply get_tile_hit. exact (path_exists_of_lookup _ _ _ Hfile).
Qed.

(** X2. A request that carries [fields] or [cql_filter], and any request
    while the cache age is not positive, leaves the file system as it
    found it, whether it is answered or raises. *)
Theorem dynamic_request_leaves_cache_alone (schema table tms : string) (z x y : Z)
    (fields cql_filter : option string) (w : World) :
  fields ≠ None ∨ cql_filter ≠ None ∨ CACHE_AGE_IN_SECONDS ≤ 0 →
  (Utilities.get_tile schema table tms z x y fields cql_filter w).2 = w.
Proof.
  intros Hdyn.
  assert (Utilities.cache_write_gate fields cql_filter = false) as Hgate.
  { unfold Utilities.cache_write_gate.
    destruct Hdyn as [Hf | [Hc | Ha]].
    - now rewrite (bool_decide_eq_false_2 _ Hf).
    - rewrite (bool_decide_eq_false_2 _ Hc). apply andb_false_intro1, andb_false_r.
    - rewrite (bool_decide_eq_false_2 (0 < CACHE_AGE_IN_SECONDS)) by lia.
      apply andb_false_r. }
  unfold Utilities.get_tile, mbind, M_bind, os_path_exists, lift, mret, M_ret.
  destruct (path_exists w _); [reflexivity |].
  destruct (fetch_column_names _); [| reflexivity].
  destruct (Utilities.tile_query _ _ _ _ _ _ _ _); [| reflexivity].
  destruct (fetchval_tile _); [| reflexivity].
  now rewrite Hgate.
Qed.

(** X3. The status of a tile answer: 204 exactly when the tile was
    computed by the live query and is empty; otherwise 200, and an answer
    from the cache names the cache file of the key. *)
Theorem tile_status_code (schema table tms : string) (z x y : Z)
    (fields cql_filter : option string) (w w' : World) (r : Router.Response) :
  Router.tile schema table tms z x y fields cql_filter w = (Return r, w') →
  (Router.status_code r = 204 ∧ Router.response_body r = Router.ContentBody []) ∨
  (Router.status_code r = 200 ∧
   (Router.response_body r = Router.FileBody (Utilities.cache_file schema table tms z x y) ∨
    ∃ pbf, pbf ≠ [] ∧ Router.response_body r = Router.ContentBody pbf)).
Proof.
  unfold Router.tile, mbind, M_bind.
  destruct (Utilities.get_tile _ _ _ _ _ _ _ _ w) as [[[pbf served]|e] w1]; [| discriminate].
  destruct served; intros [= <- <-]; cbn [Router.status_code Router.response_body].
  - right. split; [reflexivity |]. left. reflexivity.
  - destruct (decide (pbf = [])) as [-> | Hne].
    + left. rewrite bool_decide_eq_true_2 by reflexivity. split; reflexivity.
    + right. rewrite (bool_decide_eq_false_2 _ Hne). split; [reflexivity |]. right. eauto.
Qed.

(** X4. Invalidation removes nothing else: [delete_tile_cache] and every
    mutating handler leave each path that is neither the table's cache
    directory nor beneath it exactly as it was. *)
Theorem invalidation_keeps_other_paths (schema table p : string) (w : World) :
  ¬ under (Utilities.cache_dir schema table) p →
  fs (Utilities.delete_tile_cache schema table w).2 !! p = fs w !! p ∧
  ∀ m : Router.mutation, fs (Router.handle schema table m w).2 !! p = fs w !! p.
Proof.
  intros Hp.
  assert (fs (Utilities.delete_tile_cache schema table w).2 !! p = fs w !! p) as Hdel.
  { unfold Utilities.delete_tile_cache, mbind, M_bind, os_path_exists.
    destruct (path_exists w _); [| reflexivity].
    cbn [shutil_rmtree snd fs]. unfold shutil_rmtree. cbn [snd fs].
    destruct (fs w !! p) as [n|] eqn:Hn.
    - apply map_lookup_filter_Some. split; [exact Hn | exact Hp].
    - apply map_lookup_filter_None. left. exact Hn. }
  split; [exact Hdel |].
  intros m. destruct (Router.statements schema table m) as [[]|e] eqn:Hst.
  - now rewrite (handle_after_statements _ _ _ _ Hst).
  - destruct m; simpl in Hst;
      unfold Router.handle, Router.create_item, Router.update_item, Router.modify_item,
        Router.delete_item, Router.add_column, Router.delete_column, mbind, M_bind, lift;
      try rewrite Hst; try reflexivity.
    destruct (Router.create_item_statements schema table info); [discriminate | reflexivity].
Qed.

(** X5. Two tables can share one cache directory: schema [a_b] with table
    [c] and schema [a] with table [b_c] spell the same path, so a tile
    cached for the one is served for the other. *)
Theorem cache_key_joins_schema_and_table (a b c tms : string) (z x y : Z)
    (fields cql_filter : option string) (w : World) :
  path_exists w (Utilities.cache_file (a +:+ "_" +:+ b) c tms z x y) = true →
  Utilities.cache_dir (a +:+ "_" +:+ b) c = Utilities.cache_dir a (b +:+ "_" +:+ c) ∧
  Utilities.get_tile a (b +:+ "_" +:+ c) tms z x y fields cql_filter w = (Return ([], true), w).
Proof.
  intros Hhit. split.
  - unfold Utilities.cache_dir. now rewrite !append_assoc.
  - apply get_tile_hit.
    replace (Utilities.cache_file a (b +:+ "_" +:+ c) tms z x y)
      with (Utilities.cache_file (a +:+ "_" +:+ b) c tms z x y); [exact Hhit |].
    unfold Utilities.cache_file. now rewrite !append_assoc.
Qed.

(** X6. After [delete_tile_cache], and after every mutation whose
    statements have run, the byte count of the table's cache is 0. *)
Theorem cache_size_after_invalidation (schema table : string) (w : World) :
  Router.tile_cache_bytes schema table (Utilities.delete_tile_cache schema table w).2 = 0 ∧
  ∀ m : Router.mutation,
    Router.statements schema table m = Return tt →
    Router.tile_cache_bytes schema table (Router.handle schema table m w).2 = 0.
Proof.
  assert (Router.tile_cache_bytes schema table (Utilities.delete_tile_cache schema table w).2 = 0)
    as Hzero.
  { unfold Router.tile_cache_bytes.
    change (cwd +:+ "/cache/" +:+ schema +:+ "_" +:+ table) with (Utilities.cache_dir schema table).
    now rewrite (delete_tile_cache_absent schema table _ w (under_refl _)). }
  split; [exact Hzero |].
  intros m Hst. now rewrite (handle_after_statements _ _ _ _ Hst).
Qed.

End TileStore.

(** *** On the [public.states] fixture *)

Section TileStoreOnStates.
#[local] Existing Instance Fixture.states.
Import Fixture.

Lemma stored_tile_is_served_witness :
  fs (Utilities.get_tile "public" "states" "WorldCRS84Quad" 0 0 0 None None empty_world).2
    !! Utilities.cache_file "public" "states" "WorldCRS84Quad" 0 0 0 = Some (File a_tile).
Proof.
  apply (stored_tile_is_served "public" "states" "WorldCRS84Quad" 0 0 0 empty_world
           (Utilities.get_tile "public" "states" "WorldCRS84Quad" 0 0 0 None None empty_world).2
           a_tile).
  - reflexivity.
  - vm_compute; reflexivity.
Defined.

Lemma dynamic_request_leaves_cache_alone_witness :
  (Utilities.get_tile "public" "states" "WorldCRS84Quad" 0 0 0
     (Some "state_name") None empty_world).2 = empty_world.
Proof.
  apply (dynamic_request_leaves_cache_alone "public" "states" "WorldCRS84Quad" 0 0 0
           (Some "state_name") None empty_world).
  left. discriminate.
Defined.

Lemma tile_status_code_witness :
  (200 = 204 ∧ Router.ContentBody a_tile = Router.ContentBody []) ∨
  (200 = 200 ∧
   (Router.ContentBody a_tile =
      Router.FileBody (Utilities.cache_file "public" "states" "WorldCRS84Quad" 0 0 0) ∨
    ∃ pbf, pbf ≠ [] ∧ Router.ContentBody a_tile = Router.ContentBody pbf)).
Proof.
  apply (tile_status_code "public" "states" "WorldCRS84Quad" 0 0 0 None None empty_world
           (Utilities.get_tile "public" "states" "WorldCRS84Quad" 0 0 0 None None empty_world).2
           (Router.mkResponse (Router.ContentBody a_tile) "application/vnd.mapbox-vector-tile" 200
              [("Cache-Control", "max-age=3600"); ("tile-cache", "false")])).
  vm_compute; reflexivity.
Defined.

Lemma invalidation_keeps_other_paths_witness :
  fs (Utilities.delete_tile_cache "public" "states"
        (mkWorld {[ "/srv/app/cache/public_states/WorldCRS84Quad/0/0/0" := File a_tile;
                    "/srv/app/cache/public_cities/WorldCRS84Quad/0/0/0" := File a_tile ]}
           false [])).2
    !! "/srv/app/cache/public_cities/WorldCRS84Quad/0/0/0" = Some (File a_tile).
Proof.
  rewrite (proj1 (invalidation_keeps_other_paths "public" "states"
                    "/srv/app/cache/public_cities/WorldCRS84Quad/0/0/0" _
                    ltac:(intros Hu; apply (bool_decide_eq_true_2 _) in Hu;
                          vm_compute in Hu; discriminate))).
  vm_compute; reflexivity.
Defined.

Lemma cache_key_joins_schema_and_table_witness :
  Utilities.get_tile "geo" ("us" +:+ "_" +:+ "states") "WorldCRS84Quad" 0 0 0 None None
    (mkWorld {[ Utilities.cache_file "geo_us" "states" "WorldCRS84Quad" 0 0 0 := File a_tile ]}
       false []) =
  (Return ([], true),
   mkWorld {[ Utilities.cache_file "geo_us" "states" "WorldCRS84Quad" 0 0 0 := File a_tile ]}
     false []).
Proof.
  apply (cache_key_joins_schema_and_table "geo" "us" "states").
  vm_compute; reflexivity.
Defined.

End TileStoreOnStates.

(** ** More on the items query *)

Section ItemsMore.
Context `{Environment}.

(** Without a catalog column among the names of the query string, the
    fold of [column_where_parameters] adds nothing. *)
Lemma column_where_fold_none (params : list (string * string)) (names db_fields : list string)
    (start : string) :
  (∀ column, column ∈ db_fields → column ∉ names) →
  foldl (λ where_parameters column,
           if str_in column names then
             (if bool_decide (String.length where_parameters ≠ 0%nat)
              then where_parameters +:+ " AND " else where_parameters) +:+
             " " +:+ column +:+ " = '" +:+ Router.query_param params column +:+ "' "
           else where_parameters)
        start db_fields = start.
Proof.
  revert start. induction db_fields as [|field rest IH]; intros start Hnone; [reflexivity |].
  simpl. assert (str_in field names = false) as ->
    by (apply bool_decide_eq_false_2, Hnone; left).
  apply IH. intros column Hin. apply Hnone. now right.
Qed.

(** X7. Names in the query string that are neither declared parameters
    nor columns of the table are ignored: without a [cql_filter], a request
    that names no column in its query string hands on no filter at all. *)
Theorem unknown_query_parameters_are_ignored (schema table : string)
    (request : Router.ItemsRequest) (db_fields : list string) (call : Router.GeojsonCall) :
  fetch_column_names (Router.items_field_query schema table) = Return db_fields →
  Router.cql_filter request = None →
  (∀ column, column ∈ db_fields →
     column ∉ Router.new_query_parameters (Router.query_params request)) →
  Router.items schema table request = Return call →
  Router.call_cql_filter call = None.
Proof.
  intros Hfields Hfilter Hnone.
  assert (Router.column_where_parameters (Router.query_params request) db_fields = "") as Hwhere.
  { unfold Router.column_where_parameters.
    destruct (Router.new_query_parameters _) as [|name names] eqn:Hnames; [reflexivity |].
    now apply column_where_fold_none. }
  unfold Router.items, mbind, outcome_bind. rewrite Hfields, Hfilter, Hwhere.
  match goal with
  | |- context [match ?step with Return _ => _ | Raise _ => _ end] =>
      destruct step as [props|e]; [| discriminate]
  end.
  now intros [= <-].
Qed.

Lemma drop_last_comma (s : string) : drop_last (s +:+ ",") = s.
Proof.
  induction s as [|c s IH]; [reflexivity |].
  rewrite append_cons. cbn [drop_last]. rewrite IH.
  destruct s; reflexivity.
Qed.

Lemma foldl_step {A B : Type} (f : A → B → A) (a : A) (x : B) (l : list B) :
  foldl f a (x :: l) = foldl f (f a x) l.
Proof. reflexivity. Qed.

Lemma all_properties_fold (db_fields : list string) (column start : string) :
  foldl (λ properties column, properties +:+ dq +:+ column +:+ dq +:+ ",") start
    (column :: db_fields) =
  start +:+ join "," ((λ column, dq +:+ column +:+ dq) <$> (column :: db_fields)) +:+ ",".
Proof.
  revert column start. induction db_fields as [|next rest IH]; intros column start.
  - rewrite foldl_step. cbn [foldl fmap list_fmap]. unfold join. cbn [String.concat].
    now rewrite !append_assoc.
  - rewrite foldl_step, (IH next). unfold join.
    rewrite !fmap_cons. cbn [String.concat]. now rewrite !append_assoc.
Qed.

(** X8. [properties = "*"] is expanded to every column of the catalog, in
    catalog order, each between double quotes, separated by commas and
    with no comma at the end; an empty catalog gives the empty string. *)
Theorem star_selects_every_column (schema table : string) (request : Router.ItemsRequest)
    (db_fields : list string) (call : Router.GeojsonCall) :
  fetch_column_names (Router.items_field_query schema table) = Return db_fields →
  Router.properties request = "*" →
  Router.items schema table request = Return call →
  Router.call_properties call = join "," ((λ column, dq +:+ column +:+ dq) <$> db_fields).
Proof.
  intros Hfields Hstar.
  assert (Router.all_properties db_fields =
            join "," ((λ column, dq +:+ column +:+ dq) <$> db_fields)) as Hall.
  { unfold Router.all_properties. destruct db_fields as [|column rest]; [reflexivity |].
    rewrite all_properties_fold. change (String.append "" ?s) with s.
    apply drop_last_comma. }
  unfold Router.items, mbind, outcome_bind. rewrite Hfields, Hstar.
  change (String.eqb "*" "*") with true. cbv beta iota.
  destruct (Router.cql_filter request) as [text|].
  - destruct (parse text) as [tree|e]; [| discriminate].
    destruct (to_sql_where tree _) as [where_text|e].
    + intros [= <-]. exact Hall.
    + destruct e; discriminate.
  - intros [= <-]. exact Hall.
Qed.

(** X9. A filter that does not parse is refused with status 400 and the
    fixed message about an invalid operator, whatever the parser raised;
    an evaluation that raises anything but [KeyError] is not caught. *)
Theorem filter_failures (schema table : string) (request : Router.ItemsRequest)
    (fields : list string) (text : string) :
  fetch_column_names (Router.items_field_query schema table) = Return fields →
  (Router.properties request = "*" ∨ Router.properties request = "" ∨
   Router.first_unknown_property (Router.properties request) fields = None) →
  Router.cql_filter request = Some text →
  (∀ e, parse text = Raise e →
     Router.items schema table request =
       Raise (HTTPException 400 "Invalid operator used in cql_filter.")) ∧
  (∀ tree e, parse text = Return tree →
     to_sql_where tree (Utilities.field_mapping_of fields) = Raise e →
     (∀ key, e ≠ KeyError key) →
     Router.items schema table request = Raise e).
Proof.
  intros Hfields Hprops Hfilter.
  assert (∃ props,
    (if String.eqb (Router.properties request) "*" then Return (Router.all_properties fields)
     else if bool_decide (0 < String.length (Router.properties request))%nat then
       match Router.first_unknown_property (Router.properties request) fields with
       | Some property =>
           Raise (HTTPException 400
                    ("Column: " +:+ property +:+ " is not a column for " +:+
                     schema +:+ "." +:+ table +:+ "."))
       | None => Return (Router.properties request)
       end
     else Return (Router.properties request)) = Return props) as [props Hstep].
  { destruct Hprops as [-> | [-> | ->]]; [eexists; reflexivity .. |].
    destruct (String.eqb (Router.properties request) "*");
      [eexists; reflexivity |].
    destruct (bool_decide (0 < String.length (Router.properties request))%nat);
      eexists; reflexivity. }
  split.
  - intros e Hparse. unfold Router.items, mbind, outcome_bind.
    now rewrite Hfields, Hstep, Hfilter, Hparse.
  - intros tree e Hparse Heval Hkey. unfold Router.items, mbind, outcome_bind.
    rewrite Hfields, Hstep, Hfilter, Hparse, Heval.
    destruct e; try reflexivity. now destruct (Hkey key).
Qed.

(** X10. A bounding box is read as its first four comma-separated fields:
    [get_table_geojson] raises [IndexError] exactly when the text has fewer
    than four. *)
Theorem short_bbox_raises_index_error (schema table box : string) (filter : option string)
    (limit offset : Z) (properties sortby : string) (sortdesc srid : Z)
    (return_geometry : bool) :
  Utilities.get_table_geojson_query schema table filter (Some box) limit offset properties
    sortby sortdesc srid return_geometry = Raise IndexError ↔
  (length (split "," box) < 4)%nat.
Proof.
  unfold Utilities.get_table_geojson_query, mbind, outcome_bind, index.
  destruct (split "," box) as [|c0 [|c1 [|c2 [|c3 more]]]]; cbn [lookup list_lookup length];
    split; intros Hx; try reflexivity; try lia; try discriminate.
Qed.

(** X11. The count query depends on the table, the filter and the
    bounding box only: the page size, the offset, the projection, the
    ordering, the SRID and the geometry switch never change it. *)
Theorem count_query_ignores_paging (schema table : string) (filter bbox : option string)
    (limit limit' offset offset' : Z) (properties properties' sortby sortby' : string)
    (sortdesc sortdesc' srid srid' : Z) (return_geometry return_geometry' : bool) :
  (Utilities.get_table_geojson_query schema table filter bbox limit offset properties
     sortby sortdesc srid return_geometry ≫= λ statements, Return statements.2) =
  (Utilities.get_table_geojson_query schema table filter bbox limit' offset' properties'
     sortby' sortdesc' srid' return_geometry' ≫= λ statements, Return statements.2).
Proof.
  unfold Utilities.get_table_geojson_query, mbind, outcome_bind, mret, outcome_ret.
  destruct bbox as [box|]; [| reflexivity].
  destruct (index (split "," box) 0); [| reflexivity].
  destruct (index (split "," box) 1); [| reflexivity].
  destruct (index (split "," box) 2); [| reflexivity].
  destruct (index (split "," box) 3); reflexivity.
Qed.

(** X12. [items] answers no request. A request that passes the checks of
    [items] reaches the call [get_table_geojson(.., cql_filter=.., ..)],
    and that function has no parameter [cql_filter] (it calls its filter
    [filter]): the call raises [TypeError], whatever the database would
    answer, so no query is sent and no link is built. A request that fails
    a check is refused as the check says. *)
Theorem items_raises_type_error
    (fetchrow_features : string → outcome (option (list Utilities.GeoFeature)))
    (fetch_records : string → outcome (list (gmap string value)))
    (schema table base_url url_path self_url : string) (request : Router.ItemsRequest) :
  Router.items_answer fetchrow_features fetch_records schema table base_url url_path self_url
    request =
    (Router.items schema table request ≫= λ _, Raise TypeError) ∧
  (∀ answer : Router.ItemsAnswer,
     Router.items_answer fetchrow_features fetch_records schema table base_url url_path self_url
       request ≠ Return answer) ∧
  bind_keywords Utilities.get_table_geojson_signature
    ["schema"; "table"; "limit"; "offset"; "properties"; "sortby"; "sortdesc"; "bbox";
     "filter"; "srid"; "return_geometry"; "app"] = Return tt.
Proof.
  assert (Router.items_answer fetchrow_features fetch_records schema table base_url url_path
            self_url request =
          (Router.items schema table request ≫= λ _, Raise TypeError)) as Hraises.
  { unfold Router.items_answer.
    destruct (Router.items schema table request) as [call|e]; reflexivity. }
  split; [exact Hraises |]. split; [| reflexivity].
  intros answer. rewrite Hraises.
  destruct (Router.items schema table request); discriminate.
Qed.

End ItemsMore.

(** ** Breaks *)

Section Breaks.
Context `{Environment} `{Numbers}.

(** X13. [numeric_breaks] answers no request: the call of
    [generate_where_clause] that follows the text of its first query names
    [schema] and [table], so it raises [TypeError] before any query is
    sent, whatever the break type, the column and the number of breaks. *)
Theorem numeric_breaks_raises_type_error (schema table : string)
    (info : Router.NumericBreaksModel) :
  Router.numeric_breaks schema table info = Raise TypeError.
Proof.
  unfold Router.numeric_breaks.
  rewrite schema_is_no_parameter; [reflexivity |].
  apply (proj1 (bool_decide_eq_true _)). reflexivity.
Qed.

(** X14. [custom_break_values] answers exactly the requests without
    breaks, with no result: its call of [generate_where_clause] is inside
    the loop over the breaks, and raises [TypeError] for the first one. *)
Theorem custom_break_values_needs_no_break (schema table : string)
    (info : Router.CustomBreaksModel) :
  Router.custom_break_values schema table info =
    if Router.breaks info is [] then Return [] else Raise TypeError.
Proof.
  unfold Router.custom_break_values.
  destruct (Router.breaks info) as [|break_range rest]; [reflexivity |].
  apply mapM_first_raises.
  rewrite schema_is_no_parameter; [reflexivity |].
  apply (proj1 (bool_decide_eq_true _)). reflexivity.
Qed.

(** The body of [generate_where_clause] on an object that has the six
    attributes it reads is the function of its values. *)
Lemma generate_where_clause_of_all (attributes : list string) (info : Utilities.WhereInfo)
    (no_where : bool) :
  Forall (λ name, name ∈ attributes)
    ["filter"; "table"; "schema"; "coordinates"; "geometry_type"; "spatial_relationship"] →
  Utilities.generate_where_clause_of attributes info no_where =
  Utilities.generate_where_clause info no_where.
Proof.
  intros Hall.
  assert (∀ (A : Type) (name : string) (v : A),
            name ∈ ["filter"; "table"; "schema"; "coordinates"; "geometry_type";
                    "spatial_relationship"] →
            getattr attributes name v = Return v) as Hread.
  { intros A name v Hname. unfold getattr, str_in.
    rewrite bool_decide_eq_true_2; [reflexivity |].
    exact (proj1 (list.Forall_forall _ _) Hall name Hname). }
  assert (∀ name, bool_decide (name ∈ ["filter"; "table"; "schema"; "coordinates";
                                        "geometry_type"; "spatial_relationship"]) = true →
            name ∈ ["filter"; "table"; "schema"; "coordinates"; "geometry_type";
                    "spatial_relationship"]) as Hin
    by (intros name; apply bool_decide_eq_true).
  unfold Utilities.generate_where_clause_of, Utilities.generate_where_clause.
  rewrite !Hread by (apply Hin; reflexivity).
  unfold mbind, outcome_bind. cbv beta iota.
  destruct (truthy (Utilities.info_filter info)) eqn:Hfilter.
  - destruct (fetch_column_names _) as [db_fields|e]; [| reflexivity].
    destruct (parse _) as [tree|e]; [| reflexivity].
    destruct (sql_to_sql_where _ _) as [compiled|e]; [| reflexivity].
    destruct (truthy (Utilities.info_coordinates info)); [| reflexivity].
    destruct (truthy (Utilities.info_geometry_type info)); [| reflexivity].
    cbn [andb]. cbv beta iota.
    destruct (truthy (Utilities.info_spatial_relationship info)); reflexivity.
  - destruct (truthy (Utilities.info_coordinates info)); [| reflexivity].
    destruct (truthy (Utilities.info_geometry_type info)); [| reflexivity].
    cbn [andb]. cbv beta iota.
    destruct (truthy (Utilities.info_spatial_relationship info)); reflexivity.
Qed.

(** X15. The body of [generate_where_clause] first reads [info.filter].
    None of the three request models above has that attribute (each has
    [cql_filter]), so on each of them the body raises [AttributeError],
    whatever [no_where] is; on an object that has the six attributes the
    body reads, it is the function of their values. *)
Theorem request_models_have_no_filter (info : Utilities.WhereInfo) (no_where : bool) :
  Forall (λ attributes,
            Utilities.generate_where_clause_of attributes info no_where = Raise AttributeError)
    [Router.BinsModel_attributes; Router.NumericBreaksModel_attributes;
     Router.CustomBreaksModel_attributes] ∧
  (∀ attributes : list string,
     Forall (λ name, name ∈ attributes)
       ["filter"; "table"; "schema"; "coordinates"; "geometry_type"; "spatial_relationship"] →
     Utilities.generate_where_clause_of attributes info no_where =
     Utilities.generate_where_clause info no_where).
Proof.
  split.
  - repeat constructor.
  - intros attributes. apply generate_where_clause_of_all.
Qed.

End Breaks.

(** ** The handlers that change rows or columns, once more *)

Section Mutations.
Context `{Environment}.

(** X17. A mutation whose statements raise is not followed by an
    invalidation: the handler raises the same exception and the file
    system, the tile cache included, is as it was. *)
Theorem failed_mutation_keeps_cache (schema table : string) (m : Router.mutation)
    (e : exn) (w : World) :
  Router.statements schema table m = Raise e →
  Router.handle schema table m w = (Raise e, w).
Proof.
  intros Hst.
  destruct m; simpl in Hst;
    unfold Router.handle, Router.create_item, Router.update_item, Router.modify_item,
      Router.delete_item, Router.add_column, Router.delete_column, mbind, M_bind, lift;
    try (rewrite Hst; reflexivity).
  destruct (Router.create_item_statements schema table info) as [gid|e'];
    [discriminate | now injection Hst as ->].
Qed.

(** The loop of [create_item] accepts only names that are columns and
    marks each as used. *)
Lemma create_item_columns_used (schema table : string) (db_columns : list string)
    (types : gmap string string) (props : list (string * value))
    (input_columns values : string) (used : list string)
    (input_columns' values' : string) (used' : list string) :
  Router.create_item_columns schema table db_columns types props input_columns values used =
    Return (input_columns', values', used') →
  (∀ column, column ∈ props.*1 → column ∈ db_columns) ∧
  (∀ column, column ∈ used' ↔ column ∈ props.*1 ∨ column ∈ used).
Proof.
  revert input_columns values used.
  induction props as [|[name v] rest IH]; intros input_columns values used Hrun.
  - cbn in Hrun. injection Hrun as <- <- <-. split.
    + intros column Hin. inversion Hin.
    + intros column. cbn. rewrite elem_of_nil. tauto.
  - cbn [Router.create_item_columns] in Hrun.
    destruct (str_in name db_columns) eqn:Hname; cbn [negb] in Hrun; [| discriminate].
    apply bool_decide_eq_true in Hname.
    unfold mbind, outcome_bind in Hrun.
    match type of Hrun with
    | match ?step with Return _ => _ | Raise _ => _ end = _ =>
        destruct step as [values1|e]; [| discriminate]
    end.
    apply IH in Hrun as [Hcols Hused]. split.
    + intros column Hin. cbn in Hin. apply elem_of_cons in Hin as [-> | Hin]; auto.
    + intros column. rewrite Hused. cbn. rewrite !elem_of_cons. tauto.
Qed.

Lemma set_clauses_used (schema table : string) (db_columns : list string)
    (types : gmap string string) (props : list (string * value))
    (query : string) (used : list string) (query' : string) (used' : list string) :
  Router.set_clauses schema table db_columns types props query used = Return (query', used') →
  (∀ column, column ∈ props.*1 → column ∈ db_columns) ∧
  (∀ column, column ∈ used' ↔ column ∈ props.*1 ∨ column ∈ used).
Proof.
  revert query used.
  induction props as [|[name v] rest IH]; intros query used Hrun.
  - cbn in Hrun. injection Hrun as <- <-. split.
    + intros column Hin. inversion Hin.
    + intros column. cbn. rewrite elem_of_nil. tauto.
  - cbn [Router.set_clauses] in Hrun.
    destruct (str_in name db_columns) eqn:Hname; cbn [negb] in Hrun; [| discriminate].
    apply bool_decide_eq_true in Hname.
    apply IH in Hrun as [Hcols Hused]. split.
    + intros column Hin. cbn in Hin. apply elem_of_cons in Hin as [-> | Hin]; auto.
    + intros column. rewrite Hused. cbn. rewrite !elem_of_cons. tauto.
Qed.

Lemma first_unused_none (db_columns used : list string) :
  Router.first_unused db_columns used = None →
  ∀ column, column ∈ db_columns → column ∈ used.
Proof.
  intros Hnone column Hin. unfold Router.first_unused in Hnone.
  apply list_elem_of_In in Hin.
  pose proof (find_none _ _ Hnone column Hin) as Hused.
  apply negb_false_iff in Hused. now apply bool_decide_eq_true in Hused.
Qed.

(** X18. What the handlers demand of the properties of a feature.
    [create_item] and [update_item] send their statements only when the
    names of the properties are exactly the columns of the table (without
    [gid] and [geom]); [modify_item] only when every name is a column. *)
Theorem properties_must_match_columns (schema table : string) (info : Router.Feature)
    (db_fields : list (string * string)) :
  fetch_columns (Router.typed_field_query schema table) = Return db_fields →
  (∀ gid, Router.create_item_statements schema table info = Return gid →
     ∀ column, column ∈ db_fields.*1 ↔ column ∈ (Router.feature_properties info).*1) ∧
  (∀ id, Router.update_item_statements schema table id info = Return tt →
     ∀ column, column ∈ db_fields.*1 ↔ column ∈ (Router.feature_properties info).*1) ∧
  (∀ id, Router.modify_item_statements schema table id info = Return tt →
     ∀ column, column ∈ (Router.feature_properties info).*1 → column ∈ db_fields.*1).
Proof.
  intros Hfields. split; [| split].
  - intros gid. unfold Router.create_item_statements, mbind, outcome_bind.
    rewrite Hfields.
    destruct (Router.create_item_columns _ _ _ _ _ _ _ _) as [[[ic vs] used]|e] eqn:Hloop;
      [| discriminate].
    destruct (Router.first_unused _ used) eqn:Hunused; [discriminate |]. intros _ column.
    apply create_item_columns_used in Hloop as [Hcols Hused]. split.
    + intros Hcol. apply (first_unused_none _ _ Hunused) in Hcol.
      apply Hused in Hcol as [Hc | Hc]; [exact Hc | inversion Hc].
    + apply Hcols.
  - intros id. unfold Router.update_item_statements, mbind, outcome_bind.
    rewrite Hfields. destruct (fetchrow_count _) as [count|e]; [| discriminate].
    destruct (count =? 0); [discriminate |].
    destruct (Router.set_clauses _ _ _ _ _ _ _) as [[query used]|e] eqn:Hloop; [| discriminate].
    destruct (Router.first_unused _ used) eqn:Hunused; [discriminate |]. intros _ column.
    apply set_clauses_used in Hloop as [Hcols Hused]. split.
    + intros Hcol. apply (first_unused_none _ _ Hunused) in Hcol.
      apply Hused in Hcol as [Hc | Hc]; [exact Hc | inversion Hc].
    + apply Hcols.
  - intros id. unfold Router.modify_item_statements, mbind, outcome_bind.
    rewrite Hfields. destruct (fetchrow_count _) as [count|e]; [| discriminate].
    destruct (count =? 0); [discriminate |].
    destruct (Router.set_clauses _ _ _ _ _ _ _) as [[query used]|e] eqn:Hloop; [| discriminate].
    intros _ column. apply set_clauses_used in Hloop as [Hcols _]. apply Hcols.
Qed.

(** X19. [generate_where_clause] without a filter. Without a complete
    spatial condition it returns the empty text. With one, it returns the
    condition after [ WHERE ] when [no_where] is false, and the bare
    condition, with no [AND] before it, when [no_where] is true. *)
Theorem where_clause_without_filter (info : Utilities.WhereInfo) :
  truthy (Utilities.info_filter info) = false →
  if truthy (Utilities.info_coordinates info) && truthy (Utilities.info_geometry_type info) &&
     truthy (Utilities.info_spatial_relationship info)
  then ∃ condition : string,
         is_prefix (default "" (Utilities.info_spatial_relationship info) +:+ "(ST_GeomFromText('")
           condition = true ∧
         Utilities.generate_where_clause info false = Return (" WHERE " +:+ condition) ∧
         Utilities.generate_where_clause info true = Return condition
  else ∀ no_where, Utilities.generate_where_clause info no_where = Return "".
Proof.
  intros Hfilter. unfold Utilities.generate_where_clause, mbind, outcome_bind.
  rewrite Hfilter.
  destruct (truthy (Utilities.info_coordinates info) && truthy (Utilities.info_geometry_type info) &&
            truthy (Utilities.info_spatial_relationship info)); [| reflexivity].
  cbn [negb]. change (String.append "" ?s) with s.
  destruct (String.eqb _ "POLYGON"); eexists; (split; [| split; reflexivity]);
    rewrite <- append_assoc; apply is_prefix_append.
Qed.

End Mutations.

(** *** On the [public.states] fixture *)

Section MoreOnStates.
#[local] Existing Instance Fixture.states.
Import Fixture.

(** The request [items?foo=bar]: [foo] is no column of the table. *)
Lemma unknown_query_parameters_are_ignored_witness :
  ∃ call : Router.GeojsonCall,
    Router.items "public" "states"
      (Router.mkItemsRequest [("foo", "bar")] None 10 0 "*" "gid" 1 None 4326 true) = Return call ∧
    Router.call_cql_filter call = None.
Proof.
  eexists. split; [vm_compute; reflexivity |].
  apply (@unknown_query_parameters_are_ignored states "public" "states"
           (Router.mkItemsRequest [("foo", "bar")] None 10 0 "*" "gid" 1 None 4326 true)
           states_columns).
  - vm_compute; reflexivity.
  - reflexivity.
  - intros column Hcolumn Hquery.
    apply list_elem_of_singleton in Hquery as ->.
    apply (bool_decide_eq_true_2 _) in Hcolumn. vm_compute in Hcolumn. discriminate.
  - vm_compute; reflexivity.
Defined.

(** The request [items] with every parameter at its default. *)
Lemma star_selects_every_column_witness :
  ∃ call : Router.GeojsonCall,
    Router.items "public" "states"
      (Router.mkItemsRequest [] None 10 0 "*" "gid" 1 None 4326 true) = Return call ∧
    Router.call_properties call =
      join "," ((λ column, dq +:+ column +:+ dq) <$> states_columns).
Proof.
  eexists. split; [vm_compute; reflexivity |].
  apply (@star_selects_every_column states "public" "states"
           (Router.mkItemsRequest [] None 10 0 "*" "gid" 1 None 4326 true) states_columns).
  - vm_compute; reflexivity.
  - reflexivity.
  - vm_compute; reflexivity.
Defined.

(** The filter [=state_name='New York'] of the tests, which the parser
    refuses. *)
Lemma filter_failures_witness :
  Router.items "public" "states"
    (Router.mkItemsRequest
       [("properties", "state_name"); ("cql_filter", "=state_name='New York'")] None 10 0
       "state_name" "gid" 1 (Some "=state_name='New York'") 4326 true) =
    Raise (HTTPException 400 "Invalid operator used in cql_filter.").
Proof.
  apply (proj1 (@filter_failures states "public" "states"
                  (Router.mkItemsRequest
                     [("properties", "state_name"); ("cql_filter", "=state_name='New York'")]
                     None 10 0 "state_name" "gid" 1 (Some "=state_name='New York'") 4326 true)
                  states_columns "=state_name='New York'"
                  ltac:(vm_compute; reflexivity)
                  ltac:(right; right; vm_compute; reflexivity) ltac:(reflexivity))
          ParseError).
  vm_compute; reflexivity.
Defined.

(** [PUT items/1] with a property that is no column, the tile 0/0/0
    cached. *)
Lemma failed_mutation_keeps_cache_witness :
  Router.handle "public" "states"
    (Router.UpdateItem 1 (Router.mkFeature "1" [("capital", Text "Albany")] "{}")) cached_world =
    (Raise (Router.not_a_column "public" "states" "capital" "state_name,population"),
     cached_world).
Proof.
  apply (@failed_mutation_keeps_cache states "public" "states").
  vm_compute; reflexivity.
Defined.

(** [POST items] with both columns of the table. *)
Lemma properties_must_match_columns_witness :
  Router.create_item_statements "public" "states"
    (Router.mkFeature "0" [("population", Number 5); ("state_name", Text "Ohio")] "{}") =
    Return 52 ∧
  ("population" ∈ [("state_name", "text"); ("population", "integer")].*1 ↔
   "population" ∈ [("population", Number 5); ("state_name", Text "Ohio")].*1).
Proof.
  assert (Router.create_item_statements "public" "states"
            (Router.mkFeature "0" [("population", Number 5); ("state_name", Text "Ohio")] "{}") =
            Return 52) as Hrun by (vm_compute; reflexivity).
  split; [exact Hrun |].
  exact (proj1 (@properties_must_match_columns states "public" "states"
                  (Router.mkFeature "0" [("population", Number 5); ("state_name", Text "Ohio")] "{}")
                  [("state_name", "text"); ("population", "integer")]
                  ltac:(vm_compute; reflexivity)) 52 Hrun "population").
Defined.

(** A polygon that the rows must intersect, and no filter. *)
Lemma where_clause_without_filter_witness :
  ∃ condition : string,
    is_prefix ("ST_Intersects" +:+ "(ST_GeomFromText('") condition = true ∧
    Utilities.generate_where_clause
      (Utilities.mkWhereInfo None "states" "public" (Some "0 0,0 1,1 1,0 0") (Some "POLYGON")
         (Some "ST_Intersects")) false = Return (" WHERE " +:+ condition) ∧
    Utilities.generate_where_clause
      (Utilities.mkWhereInfo None "states" "public" (Some "0 0,0 1,1 1,0 0") (Some "POLYGON")
         (Some "ST_Intersects")) true = Return condition.
Proof.
  exact (@where_clause_without_filter states
           (Utilities.mkWhereInfo None "states" "public" (Some "0 0,0 1,1 1,0 0") (Some "POLYGON")
              (Some "ST_Intersects")) eq_refl).
Defined.

End MoreOnStates.

(** ** The answer of [get_table_geojson] *)

Section GeojsonAnswer.
Context `{Environment}.

Lemma mapM_cons {A B : Type} (f : A → outcome B) (x : A) (l : list A) :
  mapM f (x :: l) = (y ← f x; k ← mapM f l; Return (y :: k)).
Proof. reflexivity. Qed.

Lemma mapM_Return {A B : Type} (f : A → outcome B) (l : list A) (k : list B) :
  mapM f l = Return k → Forall2 (λ x y, f x = Return y) l k.
Proof.
  revert k. induction l as [|x l IH]; intros k Hrun.
  - injection Hrun as <-. constructor.
  - rewrite mapM_cons in Hrun. destruct (f x) as [y|e] eqn:Hx; [| discriminate].
    destruct (mapM f l) as [k'|e]; [| discriminate].
    injection Hrun as <-. constructor; [exact Hx | now apply IH].
Qed.

Lemma mapM_Raise {A B : Type} (f : A → outcome B) (l : list A) (e : exn) :
  (∀ x e', f x = Raise e' → e' = e) → Exists (λ x, ∃ e', f x = Raise e') l →
  mapM f l = Raise e.
Proof.
  intros Honly Hex. induction l as [|x l IH]; [inversion Hex |].
  rewrite mapM_cons. destruct (f x) as [y|e'] eqn:Hx.
  - change ((mapM f l ≫= λ k, Return (y :: k)) = Raise e).
    rewrite IH; [reflexivity |]. inversion Hex as [? ? [e' He'] | ? ? Hl]; subst.
    + rewrite Hx in He'. discriminate.
    + exact Hl.
  - now rewrite (Honly x e' Hx).
Qed.


Lemma format_feature_Return (properties : string) (feature formatted : Utilities.GeoFeature) :
  Utilities.format_feature properties feature = Return formatted →
  Utilities.geo_properties formatted !! "geom" = None ∧
  Utilities.geo_properties formatted !! "st_transform" = None ∧
  Utilities.geo_id formatted = Utilities.geo_properties feature !! "gid" ∧
  is_Some (Utilities.geo_id formatted) ∧
  (if String.eqb properties "" then Utilities.geo_properties formatted !! "gid" = None
   else Utilities.geo_properties formatted !! "gid" = Utilities.geo_id formatted).
Proof.
  unfold Utilities.format_feature.
  set (props1 := if bool_decide (is_Some (Utilities.geo_properties feature !! "st_transform"))
                 then delete "st_transform" (Utilities.geo_properties feature)
                 else Utilities.geo_properties feature).
  set (props2 := if bool_decide (is_Some (props1 !! "geom")) then delete "geom" props1 else props1).
  assert (props1 !! "st_transform" = None) as Hst1.
  { subst props1. case_bool_decide as Hin; [apply lookup_delete_eq |].
    now apply eq_None_not_Some. }
  assert (props2 !! "geom" = None) as Hgeom.
  { subst props2. case_bool_decide as Hin; [apply lookup_delete_eq |].
    now apply eq_None_not_Some. }
  assert (props2 !! "st_transform" = None) as Hst.
  { subst props2. case_bool_decide; [| exact Hst1].
    rewrite lookup_delete_ne by discriminate. exact Hst1. }
  assert (props2 !! "gid" = Utilities.geo_properties feature !! "gid") as Hgid.
  { subst props2 props1. repeat case_bool_decide; rewrite ?lookup_delete_ne by discriminate;
      reflexivity. }
  destruct (props2 !! "gid") as [gid|] eqn:Hfound; [| discriminate].
  intros Hrun. injection Hrun as <-. cbn [Utilities.geo_properties Utilities.geo_id].
  destruct (String.eqb properties "").
  - rewrite !lookup_delete_ne by discriminate. rewrite lookup_delete_eq.
    repeat split; eauto.
  - repeat split; eauto.
Qed.

Lemma record_feature_Return (properties : string) (record : gmap string value)
    (formatted : Utilities.GeoFeature) :
  Utilities.record_feature properties record = Return formatted →
  Utilities.geo_properties formatted !! "geom" = None ∧
  Utilities.geo_properties formatted !! "st_transform" = None ∧
  Utilities.geo_id formatted = record !! "gid" ∧
  is_Some (Utilities.geo_id formatted) ∧
  (if String.eqb properties "" then Utilities.geo_properties formatted !! "gid" = None
   else Utilities.geo_properties formatted !! "gid" = Utilities.geo_id formatted).
Proof.
  unfold Utilities.record_feature.
  destruct (record !! "gid") as [gid|] eqn:Hgid; [| discriminate].
  set (props := filter _ record).
  assert (props !! "geom" = None) as Hgeom.
  { subst props. apply map_lookup_filter_None. right. intros v _ Hkeep. discriminate Hkeep. }
  assert (props !! "st_transform" = None) as Hst.
  { subst props. apply map_lookup_filter_None. right. intros v _ Hkeep. discriminate Hkeep. }
  assert (props !! "gid" = Some gid) as Hkept.
  { subst props. apply map_lookup_filter_Some. split; [exact Hgid | reflexivity]. }
  rewrite Hkept. destruct (String.eqb properties ""); intros Hrun; injection Hrun as <-;
    cbn [Utilities.geo_properties Utilities.geo_id].
  - rewrite !lookup_delete_ne by discriminate. rewrite lookup_delete_eq.
    repeat split; eauto.
  - repeat split; eauto.
Qed.

(** X20. What [get_table_geojson] answers, with or without geometry:
    the count of the count query as [numberMatched], and features whose
    properties never hold [geom] or [st_transform], whose [id] is set, and
    whose [gid] property is that [id], or is removed when the projection
    is the empty text. *)
Theorem geojson_features_are_formatted (properties : string) (return_geometry : bool)
    (json_features : option (list Utilities.GeoFeature)) (records : list (gmap string value))
    (count : Z) (answer : Utilities.FeatureCollection) :
  Utilities.get_table_geojson_result properties return_geometry json_features records count =
    Return answer →
  Utilities.numberMatched answer = count ∧
  Utilities.numberReturned answer = Z.of_nat (length (Utilities.features answer)) ∧
  length (Utilities.features answer) =
    (if return_geometry then length (default [] json_features) else length records) ∧
  ∀ feature, feature ∈ Utilities.features answer →
    Utilities.geo_properties feature !! "geom" = None ∧
    Utilities.geo_properties feature !! "st_transform" = None ∧
    is_Some (Utilities.geo_id feature) ∧
    (if String.eqb properties "" then Utilities.geo_properties feature !! "gid" = None
     else Utilities.geo_properties feature !! "gid" = Utilities.geo_id feature).
Proof.
  unfold Utilities.get_table_geojson_result.
  destruct return_geometry; [destruct json_features as [found|] |].
  - destruct (mapM _ found) as [formatted|e] eqn:Hloop; [| discriminate].
    intros Hrun. injection Hrun as <-. cbn.
    apply mapM_Return in Hloop.
    split; [reflexivity |]. split; [reflexivity |].
    split; [symmetry; eapply Forall2_length, Hloop |].
    intros feature Hin.
    apply list_elem_of_lookup in Hin as [i Hi].
    destruct (Forall2_lookup_r _ _ _ _ _ Hloop Hi) as (source & _ & Hformat).
    apply format_feature_Return in Hformat as (Hgeom & Hst & _ & Hid & Hgid). auto.
  - intros Hrun. injection Hrun as <-. cbn.
    split; [reflexivity |]. split; [reflexivity |]. split; [reflexivity |].
    intros feature Hin. inversion Hin.
  - destruct (mapM _ records) as [formatted|e] eqn:Hloop; [| discriminate].
    intros Hrun. injection Hrun as <-. cbn.
    apply mapM_Return in Hloop.
    split; [reflexivity |]. split; [reflexivity |].
    split; [symmetry; eapply Forall2_length, Hloop |].
    intros feature Hin.
    apply list_elem_of_lookup in Hin as [i Hi].
    destruct (Forall2_lookup_r _ _ _ _ _ Hloop Hi) as (source & _ & Hformat).
    apply record_feature_Return in Hformat as (Hgeom & Hst & _ & Hid & Hgid). auto.
Qed.

(** X21. A returned feature whose properties have no [gid], as when the
    projection names columns without [gid], makes [get_table_geojson]
    raise [KeyError] for [gid]: nothing is answered for the other
    features. *)
Theorem feature_without_gid_is_a_key_error (properties : string)
    (found : list Utilities.GeoFeature) (records : list (gmap string value)) (count : Z) :
  Exists (λ feature, Utilities.geo_properties feature !! "gid" = None) found →
  Utilities.get_table_geojson_result properties true (Some found) records count =
    Raise (KeyError "gid").
Proof.
  intros Hex. unfold Utilities.get_table_geojson_result.
  rewrite (mapM_Raise (Utilities.format_feature properties) found (KeyError "gid")); [reflexivity | |].
  - intros feature e. unfold Utilities.format_feature.
    destruct (_ !! "gid"); [discriminate |]. now intros [= <-].
  - revert Hex. apply List.Exists_impl. intros feature Hgid.
    exists (KeyError "gid"). unfold Utilities.format_feature.
    assert (∀ (A : Type) (m : gmap string A) (k : string),
              k ≠ "gid" → m !! "gid" = None →
              (if bool_decide (is_Some (m !! k)) then delete k m else m) !! "gid" = None) as Hkeep.
    { intros A m k Hk Hm. case_bool_decide; [| exact Hm]. now rewrite lookup_delete_ne. }
    rewrite Hkeep; [reflexivity | discriminate |].
    apply Hkeep; [discriminate | exact Hgid].
Qed.

End GeojsonAnswer.

Section GeojsonAnswerOnStates.
#[local] Existing Instance Fixture.states.
Import Fixture.

(** One row of [public.states] asked with the empty projection. *)
Lemma geojson_features_are_formatted_witness :
  ∃ answer : Utilities.FeatureCollection,
    Utilities.get_table_geojson_result "" true
      (Some [@Utilities.mkGeoFeature states None (Some "{}")
               {[ "gid" := Number 1; "st_transform" := Text "0101" ]}]) [] 51 = Return answer ∧
    Utilities.numberMatched answer = 51 ∧
    Utilities.numberReturned answer = Z.of_nat (length (Utilities.features answer)) ∧
    length (Utilities.features answer) = 1%nat.
Proof.
  assert (Utilities.get_table_geojson_result "" true
            (Some [@Utilities.mkGeoFeature states None (Some "{}")
                     {[ "gid" := Number 1; "st_transform" := Text "0101" ]}]) [] 51 =
          Return (Utilities.mkFeatureCollection
                    [@Utilities.mkGeoFeature states (Some (Number 1)) (Some "{}") ∅] 51 1))
    as Hrun by (vm_compute; reflexivity).
  eexists. split; [exact Hrun |].
  destruct (@geojson_features_are_formatted states _ _ _ _ _ _ Hrun)
    as (Hmatched & Hreturned & Hlength & _).
  split; [exact Hmatched |]. split; [exact Hreturned | exact Hlength].
Defined.

(** The projection [state_name]: the feature comes back without [gid]. *)
Lemma feature_without_gid_is_a_key_error_witness :
  Utilities.get_table_geojson_result "state_name" true
    (Some [@Utilities.mkGeoFeature states None (Some "{}") {[ "state_name" := Text "Ohio" ]}])
    [] 1 = Raise (KeyError "gid").
Proof.
  apply (@feature_without_gid_is_a_key_error states).
  apply Exists_cons_hd. vm_compute; reflexivity.
Defined.

End GeojsonAnswerOnStates.
